(** * The statement-analysis flow of the front end

    A shallow embedding of the client-side upload / analyze / results flow:

    - [SA1]: the component of [frontend/app/components/StatementAnalysis.tsx]
      (seventeen views, MIME check on the chosen file, [platform] field);
    - [SA2]: the second [StatementAnalysis] component of the repository
      (views [home], [kotak], [phonepe]; [resetState]; [bank] field),
      together with its [KotakAnalysisView];
    - [Results1], [Results2]: the summary block of the two [ResultsView]s;
    - [Breakdown]: the category list and the page note of the results
      screens; [NotificationSettings]: the switches of the settings page.

    Handlers are embedded as the list of effects they perform, in program
    order.  An [async] handler is cut at its [await fetch(...)]: the part
    before the cut runs inside the user event, the part after it runs when
    the request settles, and other events may run in between. *)

From Stdlib Require Import String Ascii List ZArith Bool Lia DecimalString.
Import ListNotations.
Local Open Scope string_scope.
Local Open Scope Z_scope.

Set Implicit Arguments.
Set Warnings "-register-all".

(** ** JavaScript values that cross the flow *)

(** A DOM [File]; the flow reads only [name] and [type]. *)
Record File : Type := mkFile { file_name : string; file_type : string }.

(** A parsed JSON value.  A number is kept as the text [String(x)]
    gives for it ([12], [-0.5], [1e+21], ...): that text determines the
    number up to the sign of zero, and its truthiness and its text are
    all the flow ever asks of a number. *)
Inductive Json : Type :=
| JNull
| JBool (b : bool)
| JNum (text : string)
| JStr (s : string)
| JArr (items : list Json)
| JObj (fields : list (string * Json)).

(** A thrown value.  [ThrownError m] is an instance of [Error] (also of
    [TypeError], [SyntaxError]) with [message] [m]; [ThrownOther] is any
    other thrown value, which has no [message]. *)
Inductive Thrown : Type :=
| ThrownError (message : string)
| ThrownOther.

(** [x || y] on strings that may be [undefined]. *)
Definition str_or (x : option string) (y : string) : string :=
  match x with
  | Some s => if String.eqb s "" then y else s
  | None => y
  end.

(** Truthiness of a JSON value; [None] is [undefined]. *)
Definition truthy (v : option Json) : bool :=
  match v with
  | None => false
  | Some JNull => false
  | Some (JBool b) => b
  | Some (JNum text) => negb (String.eqb text "0")
  | Some (JStr s) => negb (String.eqb s "")
  | Some (JArr _) => true
  | Some (JObj _) => true
  end.

(** The decimal digits of an integer, as a template literal prints the
    [status] of a response. *)
Definition Z_to_string (n : Z) : string := NilZero.string_of_int (Z.to_int n).

(** [String(v)], the conversion [new Error(v)] applies to its argument. *)
Fixpoint js_toString (v : Json) : string :=
  match v with
  | JNull => "null"
  | JBool true => "true"
  | JBool false => "false"
  | JNum text => text
  | JStr s => s
  | JArr items =>
      (fix join (l : list Json) : string :=
         match l with
         | [] => ""
         | x :: rest =>
             let here := match x with JNull => "" | _ => js_toString x end in
             match rest with
             | [] => here
             | _ :: _ => here ++ "," ++ join rest
             end
         end) items
  | JObj _ => "[object Object]"
  end.

(** Property lookup on a parsed object: with a repeated key the last
    occurrence is the one [JSON.parse] keeps. *)
Fixpoint lookup_last (k : string) (fields : list (string * Json)) : option Json :=
  match fields with
  | [] => None
  | (k', v) :: rest =>
      match lookup_last k rest with
      | Some v' => Some v'
      | None => if String.eqb k k' then Some v else None
      end
  end.

(** The message of the [TypeError] raised by reading a property of [null]
    (the wording is the engine's; V8's is used). *)
Definition null_property_error (prop : string) : Thrown :=
  ThrownError ("Cannot read properties of null (reading '" ++ prop ++ "')").

(** [s.replace(/\/$/, "")]: one trailing slash is removed. *)
Fixpoint replace_trailing_slash (s : string) : string :=
  match s with
  | EmptyString => EmptyString
  | String c rest =>
      match rest with
      | EmptyString => if Ascii.eqb c "/" then EmptyString else s
      | String _ _ => String c (replace_trailing_slash rest)
      end
  end.

(** ** The request and what comes back *)

Inductive FormValue : Type :=
| FormFile (f : File)
| FormString (s : string).

(** A [FormData]: the appended entries, in order. *)
Definition FormData : Type := list (string * FormValue).

Record Request : Type := mkRequest
  { req_url : string; req_method : string; req_body : FormData }.

(** A [Response]: its status and what [response.json()] settles to. *)
Record Response : Type := mkResponse
  { status : Z; json : Thrown + Json }.

(** [response.ok]: the status is in the range 200-299. *)
Definition ok (r : Response) : bool := (200 <=? status r) && (status r <=? 299).

(** How [await fetch(...)] settles. *)
Inductive FetchOutcome : Type :=
| Rejected (t : Thrown)
| Resolved (r : Response).

(** ** Effects *)

Inductive Effect : Type :=
| SetCurrentView (v : string)
| SetSelectedFile (f : option File)
| SetAnalysisState (s : string)
| SetAnalysisResults (r : Json)
| SetErrorMessage (m : option string)
| SetMounted (b : bool)
| ClearFileInput
| Fetch (req : Request)
| Alert (msg : string)
| ConsoleLog (msg : string)
| ConsoleError
| PreventDefault
| StopPropagation.

(** The requests an effect list sends, in order. *)
Fixpoint fetches (es : list Effect) : list Request :=
  match es with
  | [] => []
  | Fetch r :: rest => r :: fetches rest
  | _ :: rest => fetches rest
  end.

(** The values an effect list writes to the analysis state, in order. *)
Fixpoint state_writes (es : list Effect) : list string :=
  match es with
  | [] => []
  | SetAnalysisState s :: rest => s :: state_writes rest
  | _ :: rest => state_writes rest
  end.

(** ** Computations that may throw *)

Definition Comp (A : Type) : Type := (list Effect * (Thrown + A))%type.

Definition ret {A} (a : A) : Comp A := ([], inr a).

Definition bind {A B} (m : Comp A) (k : A -> Comp B) : Comp B :=
  match m with
  | (w, inl t) => (w, inl t)
  | (w, inr a) => let (w', r) := k a in ((w ++ w')%list, r)
  end.

Definition emit (e : Effect) : Comp unit := ([e], inr tt).

Definition throw {A} (t : Thrown) : Comp A := ([], inl t).

Definition try_catch {A} (m : Comp A) (h : Thrown -> Comp A) : Comp A :=
  match m with
  | (w, inl t) => let (w', r) := h t in ((w ++ w')%list, r)
  | (w, inr a) => (w, inr a)
  end.

Notation "x <- m ;; k" := (bind m (fun x => k))
  (at level 61, m at next level, right associativity).
Notation "m ;;; k" := (bind m (fun _ => k))
  (at level 61, right associativity).

Definition effects {A} (m : Comp A) : list Effect := fst m.

Definition await_fetch (o : FetchOutcome) : Comp Response :=
  match o with
  | Rejected t => throw t
  | Resolved r => ret r
  end.

Definition response_json (r : Response) : Comp Json :=
  match json r with
  | inl t => throw t
  | inr j => ret j
  end.

(** [v.prop] on a parsed value: [null] throws, an object is looked up, a
    primitive or an array has no such property. *)
Definition get_prop (v : Json) (prop : string) : Comp (option Json) :=
  match v with
  | JNull => throw (null_property_error prop)
  | JObj fields => ret (lookup_last prop fields)
  | _ => ret None
  end.

(** [new Error(v || fallback)]. *)
Definition new_Error_or (v : option Json) (fallback : string) : Thrown :=
  ThrownError (if truthy v then match v with Some j => js_toString j | None => fallback end
               else fallback).

(** [process.env.NEXT_PUBLIC_API_URL]: unset, or the configured string. *)
Record Env : Type := mkEnv { NEXT_PUBLIC_API_URL : option string }.

(** [files?.[0]] on a [FileList] that may be [null]. *)
Definition first_file (files : option (list File)) : option File :=
  match files with
  | Some (f :: _) => Some f
  | _ => None
  end.

(** The in-flight requests once the [n]-th has settled. *)
Fixpoint remove_nth {A} (n : nat) (l : list A) : list A :=
  match l, n with
  | [], _ => []
  | _ :: rest, O => rest
  | x :: rest, S n' => x :: remove_nth n' rest
  end.

(** What [renderContent] of an analysis view returns: the upload panel,
    the spinner, the text that results are not available, the
    [ResultsView] element with the stored results as its prop, or [null]. *)
Inductive Panel : Type :=
| UploadPanel
| AnalyzingPanel
| ResultsUnavailable
| ResultsPanel (analysisResults : Json)
| NoPanel.

(** * The first component *)

Module SA1.

(** The component's state variables that the flow reads or writes, and
    the requests that were sent and have not settled yet. *)
Record State : Type := mkState
  { mounted : bool;
    currentView : string;
    selectedFile : option File;
    analysisState : string;
    analysisResults : Json;
    in_flight : list Request }.

Definition init : State :=
  {| mounted := false;
     currentView := "home";
     selectedFile := None;
     analysisState := "upload";
     analysisResults := JNull;
     in_flight := [] |}.

Definition apply_effect (st : State) (e : Effect) : State :=
  match e with
  | SetMounted b =>
      mkState b (currentView st) (selectedFile st) (analysisState st)
              (analysisResults st) (in_flight st)
  | SetCurrentView v =>
      mkState (mounted st) v (selectedFile st) (analysisState st)
              (analysisResults st) (in_flight st)
  | SetSelectedFile f =>
      mkState (mounted st) (currentView st) f (analysisState st)
              (analysisResults st) (in_flight st)
  | SetAnalysisState s =>
      mkState (mounted st) (currentView st) (selectedFile st) s
              (analysisResults st) (in_flight st)
  | SetAnalysisResults r =>
      mkState (mounted st) (currentView st) (selectedFile st) (analysisState st)
              r (in_flight st)
  | Fetch req =>
      mkState (mounted st) (currentView st) (selectedFile st) (analysisState st)
              (analysisResults st) (in_flight st ++ [req])%list
  | _ => st
  end.

Definition apply_effects (es : list Effect) (st : State) : State :=
  fold_left apply_effect es st.

Definition backendUrl (env : Env) : string :=
  replace_trailing_slash (str_or (NEXT_PUBLIC_API_URL env) "http://localhost:8000").

(** [analyzeStatement] up to its [await fetch(...)]. *)
Definition analyzeStatement_begin (env : Env) (currentView : string) (file : File)
  : list Effect :=
  let formData := [("file", FormFile file)] in
  let platform :=
    if String.eqb currentView "phonepe-analysis" then "phonepe"
    else if String.eqb currentView "kotak-analysis" then "kotak"
    else "phonepe" in
  let formData := (formData ++ [("platform", FormString platform)])%list in
  [ SetAnalysisState "analyzing";
    Fetch {| req_url := backendUrl env ++ "/analyze";
             req_method := "POST";
             req_body := formData |} ].

(** The rest of the [try] block, once the request has settled. *)
Definition analyzeStatement_try (o : FetchOutcome) : Comp unit :=
  response <- await_fetch o ;;
  results <- response_json response ;;
  (if negb (ok response)
   then detail <- get_prop results "detail" ;;
        throw (new_Error_or detail "Failed to analyze statement")
   else ret tt) ;;;
  emit (SetAnalysisResults results) ;;;
  emit (SetAnalysisState "results").

Definition analyzeStatement_catch (error : Thrown) : Comp unit :=
  emit ConsoleError ;;;
  emit (Alert ("Analysis failed: " ++
               match error with
               | ThrownError message => message
               | ThrownOther => "Unknown error"
               end)) ;;;
  emit (SetAnalysisState "upload").

Definition analyzeStatement_resume (o : FetchOutcome) : Comp unit :=
  try_catch (analyzeStatement_try o) analyzeStatement_catch.

(** One whole invocation, with nothing else running before it settles. *)
Definition analyzeStatement (env : Env) (currentView : string) (file : File)
           (o : FetchOutcome) : list Effect :=
  (analyzeStatement_begin env currentView file
     ++ effects (analyzeStatement_resume o))%list.

Definition handleFileSelect (env : Env) (st : State) (files : option (list File))
  : list Effect :=
  match first_file files with
  | Some file =>
      if String.eqb (file_type file) "application/pdf"
      then SetSelectedFile (Some file)
             :: analyzeStatement_begin env (currentView st) file
      else [ Alert "Please select a valid PDF file"; SetAnalysisState "upload" ]
  | None => [ Alert "Please select a valid PDF file"; SetAnalysisState "upload" ]
  end.

Definition handleDragOver : list Effect := [ PreventDefault; StopPropagation ].

Definition handleDrop (env : Env) (st : State) (files : option (list File))
  : list Effect :=
  PreventDefault :: StopPropagation ::
  match first_file files with
  | Some file =>
      if String.eqb (file_type file) "application/pdf"
      then SetSelectedFile (Some file)
             :: analyzeStatement_begin env (currentView st) file
      else [ Alert "Please drop a valid PDF file"; SetAnalysisState "upload" ]
  | None => [ Alert "Please drop a valid PDF file"; SetAnalysisState "upload" ]
  end.

(** *** Rendering *)

Record AnalysisViewProps : Type := mkProps
  { p_selectedFile : option File;
    p_analysisState : string;
    p_analysisResults : Json }.

Inductive Screen : Type :=
| HomeView
| PhonePeAnalysisView (p : AnalysisViewProps)
| KotakAnalysisView (p : AnalysisViewProps)
| MoreUpiAppsView
| BanksView
| SettingsView
| AccountSettingsView
| ReferAndEarnView
| UPIAppsView.

Definition renderCurrentView (st : State) : Screen :=
  let v := currentView st in
  if String.eqb v "home" then HomeView
  else if String.eqb v "phonepe-analysis" || String.eqb v "kotak-analysis" then
    let ViewComponent :=
      if String.eqb v "phonepe-analysis" then PhonePeAnalysisView
      else KotakAnalysisView in
    ViewComponent (mkProps (selectedFile st) (analysisState st) (analysisResults st))
  else if String.eqb v "more-upi-apps" then MoreUpiAppsView
  else if String.eqb v "more-banks" then BanksView
  else if String.eqb v "settings" then SettingsView
  else if String.eqb v "account-settings" then AccountSettingsView
  else if String.eqb v "refer-and-and-earn" then ReferAndEarnView
  else if String.eqb v "banks" then BanksView
  else if String.eqb v "upi-apps" then UPIAppsView
  else HomeView.

(** [renderContent] of [PhonePeAnalysisView] and of [KotakAnalysisView]
    (the two differ in markup only). *)
Definition renderContent (p : AnalysisViewProps) : Panel :=
  let s := p_analysisState p in
  if String.eqb s "upload" then UploadPanel
  else if String.eqb s "analyzing" then AnalyzingPanel
  else if String.eqb s "results" then
    if negb (truthy (Some (p_analysisResults p))) then ResultsUnavailable
    else ResultsPanel (p_analysisResults p)
  else NoPanel.

(** What the component returns: the spinner until mounted, the current
    view afterwards. *)
Inductive Page : Type :=
| Loading
| Shown (s : Screen).

Definition render (st : State) : Page :=
  if negb (mounted st) then Loading else Shown (renderCurrentView st).

(** *** The component as a transition system *)

Inductive Event : Type :=
| Mount
| ChangeView (v : string)
| FileSelect (files : option (list File))
| DragOver
| Drop (files : option (list File))
| Settle (n : nat) (o : FetchOutcome).

Definition handle (env : Env) (st : State) (e : Event) : list Effect :=
  match e with
  | Mount => [ SetMounted true ]
  | ChangeView v => [ SetCurrentView v ]
  | FileSelect files => handleFileSelect env st files
  | DragOver => handleDragOver
  | Drop files => handleDrop env st files
  | Settle n o =>
      match nth_error (in_flight st) n with
      | Some _ => effects (analyzeStatement_resume o)
      | None => []
      end
  end.

Definition settled (e : Event) (st : State) : State :=
  match e with
  | Settle n _ =>
      mkState (mounted st) (currentView st) (selectedFile st) (analysisState st)
              (analysisResults st) (remove_nth n (in_flight st))
  | _ => st
  end.

Definition step (env : Env) (st : State) (e : Event) : State :=
  apply_effects (handle env st e) (settled e st).

Definition run (env : Env) (st : State) (es : list Event) : State :=
  fold_left (step env) es st.

(** The analysis state after each event of a run, the starting one first. *)
Fixpoint analysisState_trace (env : Env) (st : State) (es : list Event)
  : list string :=
  analysisState st ::
  match es with
  | [] => []
  | e :: rest => analysisState_trace env (step env st e) rest
  end.

(** The events the rendered page offers.  The upload handlers are wired
    to the upload panel of an analysis view only; a view change is taken
    to be possible from any mounted page (the views offer a subset). *)
Definition upload_offered (st : State) : bool :=
  match render st with
  | Shown (PhonePeAnalysisView p) | Shown (KotakAnalysisView p) =>
      match renderContent p with UploadPanel => true | _ => false end
  | _ => false
  end.

Definition enabled (st : State) (e : Event) : bool :=
  match e with
  | Mount => true
  | ChangeView _ => mounted st
  | FileSelect _ | DragOver | Drop _ => upload_offered st
  | Settle n _ =>
      match nth_error (in_flight st) n with Some _ => true | None => false end
  end.

(** Every event of the list is offered when it happens. *)
Fixpoint offered_run (env : Env) (st : State) (es : list Event) : bool :=
  match es with
  | [] => true
  | e :: rest => enabled st e && offered_run env (step env st e) rest
  end.

End SA1.

(** * The second component, with its [KotakAnalysisView] *)

Module SA2.

(** [fileInputRef] is created by the component and handed to no element;
    [fileInputRef_current] is the value of the input it points to, if any. *)
Record State : Type := mkState
  { currentView : string;
    selectedFile : option File;
    analysisState : string;
    analysisResults : Json;
    errorMessage : option string;
    fileInputRef_current : option string;
    in_flight : list Request }.

Definition init : State :=
  {| currentView := "home";
     selectedFile := None;
     analysisState := "upload";
     analysisResults := JNull;
     errorMessage := None;
     fileInputRef_current := None;
     in_flight := [] |}.

Definition apply_effect (st : State) (e : Effect) : State :=
  match e with
  | SetCurrentView v =>
      mkState v (selectedFile st) (analysisState st) (analysisResults st)
              (errorMessage st) (fileInputRef_current st) (in_flight st)
  | SetSelectedFile f =>
      mkState (currentView st) f (analysisState st) (analysisResults st)
              (errorMessage st) (fileInputRef_current st) (in_flight st)
  | SetAnalysisState s =>
      mkState (currentView st) (selectedFile st) s (analysisResults st)
              (errorMessage st) (fileInputRef_current st) (in_flight st)
  | SetAnalysisResults r =>
      mkState (currentView st) (selectedFile st) (analysisState st) r
              (errorMessage st) (fileInputRef_current st) (in_flight st)
  | SetErrorMessage m =>
      mkState (currentView st) (selectedFile st) (analysisState st)
              (analysisResults st) m (fileInputRef_current st) (in_flight st)
  | ClearFileInput =>
      mkState (currentView st) (selectedFile st) (analysisState st)
              (analysisResults st) (errorMessage st)
              (match fileInputRef_current st with
               | Some _ => Some ""
               | None => None
               end)
              (in_flight st)
  | Fetch req =>
      mkState (currentView st) (selectedFile st) (analysisState st)
              (analysisResults st) (errorMessage st) (fileInputRef_current st)
              (in_flight st ++ [req])%list
  | _ => st
  end.

Definition apply_effects (es : list Effect) (st : State) : State :=
  fold_left apply_effect es st.

Definition resetState (st : State) : list Effect :=
  ([ SetSelectedFile None;
     SetAnalysisState "upload";
     SetAnalysisResults JNull;
     SetErrorMessage None ]
   ++ match fileInputRef_current st with
      | Some _ => [ ClearFileInput ]
      | None => []
      end)%list.

Definition handleViewChange (st : State) (view : string) : list Effect :=
  (resetState st ++ [ SetCurrentView view ])%list.

Definition apiEndpoint (env : Env) : string :=
  str_or (NEXT_PUBLIC_API_URL env) "https://demo-bl6p.onrender.com".

(** [analyzeStatement] up to its [await fetch(...)]; [file] is [None]
    for a missing file, which the guard at the top turns away. *)
Definition analyzeStatement_begin (env : Env) (file : option File) (bank : string)
  : list Effect :=
  match file with
  | None => []
  | Some file =>
      let formData := [("file", FormFile file); ("bank", FormString bank)] in
      let url := apiEndpoint env ++ "/analyze" in
      [ SetAnalysisState "analyzing";
        SetErrorMessage None;
        ConsoleLog ("Starting analysis for " ++ bank ++ " file:");
        ConsoleLog ("Making POST request to " ++ url);
        Fetch {| req_url := url; req_method := "POST"; req_body := formData |} ]
  end.

Definition analyzeStatement_try (o : FetchOutcome) : Comp unit :=
  response <- await_fetch o ;;
  emit (ConsoleLog "Received response from API:") ;;;
  data <- response_json response ;;
  (if negb (ok response)
   then emit ConsoleError ;;;
        detail <- get_prop data "detail" ;;
        throw (new_Error_or detail
                 ("HTTP error! status: " ++ Z_to_string (status response)))
   else ret tt) ;;;
  emit (ConsoleLog "API Response Data:") ;;;
  emit (SetAnalysisResults data) ;;;
  emit (SetAnalysisState "results").

Definition analyzeStatement_catch (error : Thrown) : Comp unit :=
  emit ConsoleError ;;;
  let message :=
    str_or (match error with
            | ThrownError message => Some message
            | ThrownOther => None
            end)
           "An unknown error occurred during analysis." in
  emit (SetErrorMessage (Some message)) ;;;
  emit (SetAnalysisState "upload").

Definition analyzeStatement_resume (o : FetchOutcome) : Comp unit :=
  try_catch (analyzeStatement_try o) analyzeStatement_catch.

(** One whole invocation, with nothing else running before it settles. *)
Definition analyzeStatement (env : Env) (file : option File) (bank : string)
           (o : FetchOutcome) : list Effect :=
  match file with
  | None => []
  | Some _ =>
      (analyzeStatement_begin env file bank
         ++ effects (analyzeStatement_resume o))%list
  end.

Definition handleFileSelect (env : Env) (st : State) (files : option (list File))
  : list Effect :=
  match first_file files with
  | Some file =>
      if String.eqb (currentView st) "kotak" || String.eqb (currentView st) "phonepe"
      then SetSelectedFile (Some file)
             :: analyzeStatement_begin env (Some file) (currentView st)
      else []
  | None => []
  end.

Definition handleDragOver : list Effect := [ PreventDefault ].

Definition handleDrop (env : Env) (st : State) (files : option (list File))
  : list Effect :=
  PreventDefault ::
  match first_file files with
  | Some file =>
      if String.eqb (currentView st) "kotak" || String.eqb (currentView st) "phonepe"
      then SetSelectedFile (Some file)
             :: analyzeStatement_begin env (Some file) (currentView st)
      else []
  | None => []
  end.

(** *** Rendering *)

Record KotakAnalysisViewProps : Type := mkProps
  { p_selectedFile : option File;
    p_analysisState : string;
    p_analysisResults : Json;
    p_errorMessage : option string }.

Inductive Screen : Type :=
| HomeView
| KotakAnalysisView (p : KotakAnalysisViewProps)
| PhonePeComingSoon.

(** [renderContent] of the component. *)
Definition renderContent (st : State) : Screen :=
  let v := currentView st in
  if String.eqb v "home" then HomeView
  else if String.eqb v "kotak" then
    KotakAnalysisView (mkProps (selectedFile st) (analysisState st)
                               (analysisResults st) (errorMessage st))
  else if String.eqb v "phonepe" then PhonePeComingSoon
  else HomeView.

(** [renderContent] of [KotakAnalysisView]. *)
Definition KotakAnalysisView_renderContent (p : KotakAnalysisViewProps) : Panel :=
  let s := p_analysisState p in
  if String.eqb s "upload" then UploadPanel
  else if String.eqb s "analyzing" then AnalyzingPanel
  else if String.eqb s "results" then
    if negb (truthy (Some (p_analysisResults p))) then ResultsUnavailable
    else ResultsPanel (p_analysisResults p)
  else NoPanel.

(** The error box of the upload panel, with its Dismiss button, is
    there when [errorMessage] is truthy. *)
Definition error_box (p : KotakAnalysisViewProps) : bool :=
  match p_errorMessage p with
  | Some m => negb (String.eqb m "")
  | None => false
  end.

(** *** The component as a transition system *)

Inductive Event : Type :=
| ViewChange (v : string)
| FileSelect (files : option (list File))
| DragOver
| Drop (files : option (list File))
| DismissError
| Settle (n : nat) (o : FetchOutcome).

Definition handle (env : Env) (st : State) (e : Event) : list Effect :=
  match e with
  | ViewChange v => handleViewChange st v
  | FileSelect files => handleFileSelect env st files
  | DragOver => handleDragOver
  | Drop files => handleDrop env st files
  | DismissError => [ SetErrorMessage None ]
  | Settle n o =>
      match nth_error (in_flight st) n with
      | Some _ => effects (analyzeStatement_resume o)
      | None => []
      end
  end.

Definition settled (e : Event) (st : State) : State :=
  match e with
  | Settle n _ =>
      mkState (currentView st) (selectedFile st) (analysisState st)
              (analysisResults st) (errorMessage st) (fileInputRef_current st)
              (remove_nth n (in_flight st))
  | _ => st
  end.

Definition step (env : Env) (st : State) (e : Event) : State :=
  apply_effects (handle env st e) (settled e st).

Definition run (env : Env) (st : State) (es : list Event) : State :=
  fold_left (step env) es st.

(** The analysis state after each event of a run, the starting one first. *)
Fixpoint analysisState_trace (env : Env) (st : State) (es : list Event)
  : list string :=
  analysisState st ::
  match es with
  | [] => []
  | e :: rest => analysisState_trace env (step env st e) rest
  end.

(** The events the rendered page offers: the Kotak card on the home
    view (the PhonePe card is disabled), the back button of the Kotak
    view and of the PhonePe placeholder, the upload handlers and the
    Dismiss button on the upload panel. *)
Definition enabled (st : State) (e : Event) : bool :=
  match e, renderContent st with
  | ViewChange v, HomeView => String.eqb v "kotak"
  | ViewChange v, KotakAnalysisView _ => String.eqb v "home"
  | ViewChange v, PhonePeComingSoon => String.eqb v "home"
  | (FileSelect _ | DragOver | Drop _), KotakAnalysisView p =>
      match KotakAnalysisView_renderContent p with
      | UploadPanel => true
      | _ => false
      end
  | DismissError, KotakAnalysisView p =>
      match KotakAnalysisView_renderContent p with
      | UploadPanel => error_box p
      | _ => false
      end
  | Settle n _, _ =>
      match nth_error (in_flight st) n with Some _ => true | None => false end
  | _, _ => false
  end.

Fixpoint offered_run (env : Env) (st : State) (es : list Event) : bool :=
  match es with
  | [] => true
  | e :: rest => enabled st e && offered_run env (step env st e) rest
  end.

End SA2.

(** * The summary block of the results screens *)

(** Rendered text: literal markup text, a number inserted as it is
    ([{n}]), and a number inserted through [n.toLocaleString('en-IN')]. *)
Inductive Piece : Type :=
| Lit (s : string)
| Num (n : Z)
| LocaleIN (n : Z).

Definition Text : Type := list Piece.

(** The numbers a text shows, in order. *)
Fixpoint numbers (t : Text) : list Z :=
  match t with
  | [] => []
  | Lit _ :: rest => numbers rest
  | Num n :: rest => n :: numbers rest
  | LocaleIN n :: rest => n :: numbers rest
  end.

(** The [ResultsView] of the first component, over amounts and counts
    that are integers.  [LocaleIN n] stands for the text the formatter
    gives for [n]; nothing is assumed about that text. *)
Module Results1.

Record Transaction : Type := mkTransaction
  { date : string; amount : Z; description : string; category : string }.

Record Summary : Type := mkSummary
  { totalReceived : Z;
    totalSpent : Z;
    balance : Z;
    creditCount : Z;
    debitCount : Z;
    totalTransactions : Z }.

Record DetailedCategory : Type := mkDetailedCategory
  { dc_category : string;
    dc_amount : Z;
    dc_count : Z;
    dc_percentage : Z;
    dc_transactions : list Transaction }.

Record AnalysisResult : Type := mkAnalysisResult
  { transactions : list Transaction;
    summary : Summary;
    detailedCategoryBreakdown : list DetailedCategory;
    pageCount : Z }.

(** [[...transactions].reverse().slice(0, 5)] *)
Definition recentTransactions (analysisResults : AnalysisResult) : list Transaction :=
  firstn 5 (rev (transactions analysisResults)).

(** Labels and data of the spending chart. *)
Definition chartData (analysisResults : AnalysisResult) : list string * list Z :=
  (map dc_category (detailedCategoryBreakdown analysisResults),
   map dc_amount (detailedCategoryBreakdown analysisResults)).

Record SummaryBlock : Type := mkSummaryBlock
  { balance_class : string;
    balance_line : Text;
    credit_line : Text;
    debit_line : Text;
    total_line : Text }.

(** The block under the heading Transaction Summary. *)
Definition TransactionSummary (analysisResults : AnalysisResult) : SummaryBlock :=
  let summary := summary analysisResults in
  {| balance_class :=
       if balance summary >=? 0 then "text-green-500" else "text-red-500";
     balance_line := [ Lit "₹"; LocaleIN (balance summary) ];
     credit_line :=
       [ Lit "CR: ₹"; LocaleIN (totalReceived summary);
         Lit " ("; Num (creditCount summary); Lit " trans)" ];
     debit_line :=
       [ Lit "DR: ₹"; LocaleIN (Z.abs (totalSpent summary));
         Lit " ("; Num (debitCount summary); Lit " trans)" ];
     total_line :=
       [ Lit "Total "; Num (totalTransactions summary); Lit " transactions" ] |}.

Record Rendered : Type := mkRendered
  { r_summary : SummaryBlock;
    r_chart : list string * list Z;
    r_recent : list Transaction }.

Definition ResultsView (analysisResults : AnalysisResult) : Rendered :=
  {| r_summary := TransactionSummary analysisResults;
     r_chart := chartData analysisResults;
     r_recent := recentTransactions analysisResults |}.

End Results1.

(** The [ResultsView] next to the second component, over the types of
    [types/analysis.ts]. *)
Module Results2.

Inductive TransactionType : Type := credit | debit.

Record Transaction : Type := mkTransaction
  { date : string;
    description : string;
    amount : Z;
    type : TransactionType;
    category : option string }.

Record Summary : Type := mkSummary
  { totalReceived : Z;
    totalSpent : Z;
    balance : Z;
    creditCount : Z;
    debitCount : Z;
    highestCredit : option Z;
    highestDebit : option Z }.

Record DetailedCategory : Type := mkDetailedCategory
  { dc_category : string;
    dc_amount : Z;
    dc_count : Z;
    dc_percentage : string;
    dc_transactions : list Transaction }.

Record AnalysisResult : Type := mkAnalysisResult
  { summary : Summary;
    transactions : list Transaction;
    detailedCategoryBreakdown : list DetailedCategory;
    pageCount : option Z }.

Definition chartData (analysisResults : AnalysisResult) : list string * list Z :=
  (map dc_category (detailedCategoryBreakdown analysisResults),
   map dc_amount (detailedCategoryBreakdown analysisResults)).

Record Row : Type := mkRow
  { row_title : string; row_count : Text; row_amount : Text }.

Definition SummaryRow (title : string) (count amount : Z) (isCredit : bool) : Row :=
  {| row_title := title;
     row_count := [ Num count; Lit " transactions" ];
     row_amount :=
       [ Lit (if isCredit then "+" else "-"); Lit " ₹"; LocaleIN (Z.abs amount) ] |}.

(** [amount ? Math.abs(amount).toLocaleString('en-IN') : 'N/A'] *)
Definition HighestTransaction (type : string) (amount : option Z) : Text :=
  [ Lit ("Highest " ++ type); Lit "₹";
    match amount with
    | Some a => if a =? 0 then Lit "N/A" else LocaleIN (Z.abs a)
    | None => Lit "N/A"
    end ].

Record SummaryBlock : Type := mkSummaryBlock
  { money_in : Row;
    money_out : Row;
    highest_credit : Text;
    highest_debit : Text;
    balance_class : string;
    balance_line : Text }.

(** The block under the heading Transaction Summary. *)
Definition TransactionSummary (analysisResults : AnalysisResult) : SummaryBlock :=
  let summary := summary analysisResults in
  {| money_in :=
       SummaryRow "Total Money In" (creditCount summary) (totalReceived summary) true;
     money_out :=
       SummaryRow "Total Money Out" (debitCount summary) (totalSpent summary) false;
     highest_credit := HighestTransaction "Credit" (highestCredit summary);
     highest_debit := HighestTransaction "Debit" (highestDebit summary);
     balance_class :=
       if balance summary >=? 0 then "text-green-400" else "text-red-400";
     balance_line := [ Lit "₹"; LocaleIN (balance summary) ] |}.

End Results2.

(** * Vocabulary of the properties *)

(** The three values of [AnalysisState]. *)
Definition AnalysisState_ok (s : string) : Prop :=
  s = "upload" \/ s = "analyzing" \/ s = "results".

(** The request was answered with a status in 200-299 and a body that
    parses as JSON. *)
Definition succeeds (o : FetchOutcome) : bool :=
  match o with
  | Resolved r => match json r with inr _ => ok r | inl _ => false end
  | Rejected _ => false
  end.


(** Somewhere in the list, ["upload"] is immediately followed by
    ["results"]. *)
Fixpoint direct_jump (l : list string) : bool :=
  match l with
  | [] => false
  | a :: rest =>
      match rest with
      | [] => false
      | b :: _ => (String.eqb a "upload" && String.eqb b "results") || direct_jump rest
      end
  end.

(** The case labels of [SA1.renderCurrentView] other than ['home']. *)
Definition other_cases : list string :=
  [ "phonepe-analysis"; "kotak-analysis"; "more-upi-apps"; "more-banks";
    "settings"; "account-settings"; "refer-and-and-earn"; "banks"; "upi-apps" ].

Definition is_PhonePe (s : SA1.Screen) : bool :=
  match s with SA1.PhonePeAnalysisView _ => true | _ => false end.

Definition is_Kotak (s : SA1.Screen) : bool :=
  match s with SA1.KotakAnalysisView _ => true | _ => false end.

(** An upload the first component accepts: a file is there and it is a PDF. *)
Definition accepted1 (e : SA1.Event) : bool :=
  match e with
  | SA1.FileSelect files | SA1.Drop files =>
      match first_file files with
      | Some f => String.eqb (file_type f) "application/pdf"
      | None => false
      end
  | _ => false
  end.

(** An upload the second component accepts: a file is there and the
    current view is one of the two analysis views. *)
Definition accepted2 (st : SA2.State) (e : SA2.Event) : bool :=
  match e with
  | SA2.FileSelect files | SA2.Drop files =>
      match first_file files with
      | Some _ => String.eqb (SA2.currentView st) "kotak"
                  || String.eqb (SA2.currentView st) "phonepe"
      | None => false
      end
  | _ => false
  end.

(** No view change of the run happens while a request is in flight. *)
Fixpoint quiet_run (env : Env) (st : SA2.State) (es : list SA2.Event) : bool :=
  match es with
  | [] => true
  | e :: rest =>
      match e, SA2.in_flight st with
      | SA2.ViewChange _, _ :: _ => false
      | _, _ => quiet_run env (SA2.step env st e) rest
      end
  end.

(** Sample inputs: a PDF, an environment without [NEXT_PUBLIC_API_URL],
    an analysis result that both results screens can draw, and the answer
    with status 200 that carries it. *)
Definition statement_pdf : File := mkFile "statement.pdf" "application/pdf".

Definition env_unset : Env := mkEnv None.

(** A backend URL configured with a trailing slash. *)
Definition slash_configured : Env := mkEnv (Some "https://api.example.org/").

Definition sample_result : Json :=
  JObj [ ("summary",
          JObj [ ("totalReceived", JNum "5000"); ("totalSpent", JNum "-1200.5");
                 ("balance", JNum "3799.5"); ("creditCount", JNum "1");
                 ("debitCount", JNum "1"); ("totalTransactions", JNum "2") ]);
         ("transactions", JArr []);
         ("detailedCategoryBreakdown", JArr []);
         ("pageCount", JNum "1") ].

Definition answer_ok : FetchOutcome := Resolved (mkResponse 200 (inr sample_result)).

(** The run that shows a late answer: open the Kotak view, choose a
    file, go back while the request is in flight, then the answer comes. *)
Definition late_answer_run : list SA2.Event :=
  [ SA2.ViewChange "kotak";
    SA2.FileSelect (Some [statement_pdf]);
    SA2.ViewChange "home";
    SA2.Settle 0 answer_ok ].

(** The props [renderCurrentView] hands to an analysis view. *)
Definition props_of (st : SA1.State) : SA1.AnalysisViewProps :=
  SA1.mkProps (SA1.selectedFile st) (SA1.analysisState st) (SA1.analysisResults st).

(** A request is in flight only while the analysis state is
    ['analyzing'], and then it is the only one. *)
Definition one_in_flight1 (st : SA1.State) : Prop :=
  SA1.in_flight st = []
  \/ (SA1.analysisState st = "analyzing" /\ exists r, SA1.in_flight st = [ r ]).

Definition one_in_flight2 (st : SA2.State) : Prop :=
  SA2.in_flight st = []
  \/ (SA2.analysisState st = "analyzing" /\ exists r, SA2.in_flight st = [ r ]).

(** The flow as worded: on every run the page offers, the analysis state
    never goes from ['upload'] straight to ['results']. *)
Definition never_jumps1 (env : Env) (es : list SA1.Event) : Prop :=
  SA1.offered_run env SA1.init es = true ->
  direct_jump (SA1.analysisState_trace env SA1.init es) = false.

Definition never_jumps2 (env : Env) (es : list SA2.Event) : Prop :=
  SA2.offered_run env SA2.init es = true ->
  direct_jump (SA2.analysisState_trace env SA2.init es) = false.

(** The summary block shows the five totals with the values of the
    payload. *)
Definition shows_payload_totals1 (r : Results1.AnalysisResult) : Prop :=
  let s := Results1.summary r in
  let b := Results1.TransactionSummary r in
  numbers (Results1.balance_line b) = [ Results1.balance s ]
  /\ numbers (Results1.credit_line b)
     = [ Results1.totalReceived s; Results1.creditCount s ]
  /\ numbers (Results1.debit_line b)
     = [ Results1.totalSpent s; Results1.debitCount s ].

(** A payload whose total spent is negative, as a sum of debits is. *)
Definition spent_negative : Results1.AnalysisResult :=
  Results1.mkAnalysisResult
    [ Results1.mkTransaction "2024-01-05" (-1200) "Rent" "bills";
      Results1.mkTransaction "2024-01-09" 5000 "Salary" "transfer" ]
    (Results1.mkSummary 5000 (-1200) 3800 1 1 2)
    [ Results1.mkDetailedCategory "bills" 1200 1 100
        [ Results1.mkTransaction "2024-01-05" (-1200) "Rent" "bills" ] ]
    1.

Ltac by_cases_on_view :=
  repeat match goal with
         | |- context [String.eqb ?a ?b] =>
             destruct (String.eqb_spec a b); cbn [orb negb]
         end.

Ltac by_cases_on_render :=
  repeat (cbn;
          match goal with
          | |- context [String.eqb ?a ?b] => destruct (String.eqb_spec a b)
          | |- context [if ?b then _ else _] => destruct b
          end);
  cbn.

(** * Further parts of the components *)

(** The views a screen of the first component can switch to: the two
    cards of [HomeView]; the back arrow of the analysis views and of
    their results; the back arrows of the lists; the Account,
    Notifications and Logout buttons of [SettingsView]; the back arrows
    of [AccountSettingsView] and [ReferAndEarnView]. *)
Definition offered_views (s : SA1.Screen) : list string :=
  match s with
  | SA1.HomeView => [ "phonepe-analysis"; "kotak-analysis" ]
  | SA1.PhonePeAnalysisView _ => [ "home" ]
  | SA1.KotakAnalysisView _ => [ "home" ]
  | SA1.MoreUpiAppsView => [ "home" ]
  | SA1.BanksView => [ "home" ]
  | SA1.SettingsView => [ "account-settings"; "notifications-settings"; "home" ]
  | SA1.AccountSettingsView => [ "settings" ]
  | SA1.ReferAndEarnView => [ "settings" ]
  | SA1.UPIAppsView => [ "home" ]
  end.

(** Every view change of the run is one the screen shown at that moment
    can make. *)
Fixpoint navigated_run (env : Env) (st : SA1.State) (es : list SA1.Event) : bool :=
  match es with
  | [] => true
  | e :: rest =>
      match e with
      | SA1.ChangeView v =>
          existsb (String.eqb v) (offered_views (SA1.renderCurrentView st))
      | _ => true
      end && navigated_run env (SA1.step env st e) rest
  end.

(** The parsed body of an answer, [null] when there is none. *)
Definition payload_of (o : FetchOutcome) : Json :=
  match o with
  | Resolved r => match json r with inr payload => payload | inl _ => JNull end
  | Rejected _ => JNull
  end.



(** The texts an effect list shows through [alert], in order. *)
Fixpoint alerts (es : list Effect) : list string :=
  match es with
  | [] => []
  | Alert msg :: rest => msg :: alerts rest
  | _ :: rest => alerts rest
  end.

(** The props the second component hands to [KotakAnalysisView]. *)
Definition props_of2 (st : SA2.State) : SA2.KotakAnalysisViewProps :=
  SA2.mkProps (SA2.selectedFile st) (SA2.analysisState st)
              (SA2.analysisResults st) (SA2.errorMessage st).

(** What holds of the first component between events. *)
Definition settled_flow1 (st : SA1.State) : Prop :=
  one_in_flight1 st
  /\ (SA1.analysisState st <> "results" -> SA1.analysisResults st = JNull)
  /\ (SA1.analysisState st <> "upload" -> SA1.selectedFile st <> None).

(** What holds of the second component between events, as long as no
    view change happens while a request is in flight. *)
Definition settled_flow2 (st : SA2.State) : Prop :=
  one_in_flight2 st
  /\ (SA2.in_flight st <> [] -> SA2.errorMessage st = None)
  /\ (SA2.errorMessage st <> None -> SA2.analysisState st = "upload")
  /\ (SA2.analysisState st <> "results" -> SA2.analysisResults st = JNull)
  /\ (SA2.analysisState st <> "upload" -> SA2.selectedFile st <> None).

(** A first visit to the Kotak view left while the request is in
    flight, a second visit, and then the answer of the first. *)
Definition revisit_run (f : File) (o : FetchOutcome) : list SA2.Event :=
  [ SA2.ViewChange "kotak";
    SA2.FileSelect (Some [f]);
    SA2.ViewChange "home";
    SA2.ViewChange "kotak";
    SA2.Settle 0 o ].


(** ** The category list and the page note of the results screens *)

Module Breakdown.

(** [expandedCategory === category], with [None] for [null]. *)
Definition is_expanded (expandedCategory : option string) (category : string) : bool :=
  match expandedCategory with
  | Some c => String.eqb c category
  | None => false
  end.

(** [toggleCategory] of both results screens: the new value of
    [expandedCategory]. *)
Definition toggleCategory (expandedCategory : option string) (category : string)
  : option string :=
  if is_expanded expandedCategory category then None else Some category.

(** The categories of a breakdown that are drawn expanded. *)
Definition expanded_rows (expandedCategory : option string) (categories : list string)
  : list string :=
  filter (is_expanded expandedCategory) categories.

(** The note under the heading of the first results screen:
    [{pageCount > 0 && (<p>...</p>)}]. *)
Definition page_note1 (pageCount : Z) : option Text :=
  if pageCount >? 0
  then Some [ Lit "Based on "; Num pageCount; Lit " page(s) in the PDF" ]
  else None.

(** The note of the second results screen:
    [{pageCount && pageCount > 0 && <p>...</p>}].  A missing page count
    and [false] render nothing; the number [0] is rendered as text. *)
Definition page_note2 (pageCount : option Z) : option Text :=
  match pageCount with
  | None => None
  | Some n =>
      if n =? 0 then Some [ Num n ]
      else if n >? 0
           then Some [ Lit "Based on "; Num n; Lit " page(s) in the PDF" ]
           else None
  end.

End Breakdown.

(** ** The notification settings page *)

Module NotificationSettings.

Record Settings : Type := mkSettings
  { pushNotifications : bool;
    emailNotifications : bool;
    promotions : bool }.

(** [keyof typeof settings] *)
Inductive SettingKey : Type :=
| PushNotifications
| EmailNotifications
| Promotions.

Definition init : Settings :=
  {| pushNotifications := true; emailNotifications := false; promotions := true |}.

Definition get (s : Settings) (setting : SettingKey) : bool :=
  match setting with
  | PushNotifications => pushNotifications s
  | EmailNotifications => emailNotifications s
  | Promotions => promotions s
  end.

(** The update [handleToggle] queues:
    [prev => ({ ...prev, [setting]: !prev[setting] })]. *)
Definition handleToggle (setting : SettingKey) (prev : Settings) : Settings :=
  match setting with
  | PushNotifications =>
      mkSettings (negb (get prev PushNotifications))
                 (emailNotifications prev) (promotions prev)
  | EmailNotifications =>
      mkSettings (pushNotifications prev)
                 (negb (get prev EmailNotifications)) (promotions prev)
  | Promotions =>
      mkSettings (pushNotifications prev) (emailNotifications prev)
                 (negb (get prev Promotions))
  end.

(** The colour class of a switch. *)
Definition switch_class (s : Settings) (setting : SettingKey) : string :=
  if get s setting then "bg-blue-600" else "bg-zinc-700".

End NotificationSettings.

Ltac close_flow :=
  try match goal with
      | H : ?a <> ?a |- _ => exfalso; apply H; reflexivity
      | H : ?x <> ?y, H' : ?x = ?y |- _ => exfalso; exact (H H')
      | H : Some _ = None |- _ => discriminate H
      | H : None = Some _ |- _ => discriminate H
      | |- ?a = ?a => reflexivity
      | |- Some _ <> None => discriminate
      | |- _ => assumption
      end.

(** * Properties *)

Unset Implicit Arguments.

Arguments ok : simpl never.
Arguments Z_to_string : simpl never.

Lemma last_cons_default (A : Type) (l : list A) (a d : A) :
  last (a :: l) d = last l a.
Proof.
  revert a d. induction l as [|b l IH]; intros a d.
  - reflexivity.
  - change (last (a :: b :: l) d) with (last (b :: l) d).
    rewrite (IH b d), (IH b a). reflexivity.
Qed.

Lemma state_writes_app (es1 es2 : list Effect) :
  state_writes (es1 ++ es2) = (state_writes es1 ++ state_writes es2)%list.
Proof.
  induction es1 as [|e es1 IH]; [reflexivity|].
  destruct e; simpl; rewrite IH; reflexivity.
Qed.

Lemma fetches_app (es1 es2 : list Effect) :
  fetches (es1 ++ es2) = (fetches es1 ++ fetches es2)%list.
Proof.
  induction es1 as [|e es1 IH]; [reflexivity|].
  destruct e; simpl; rewrite IH; reflexivity.
Qed.

(** What settles an invocation writes one analysis state: ['results'] on
    success, ['upload'] otherwise. *)
Lemma resume1_state_writes (o : FetchOutcome) :
  state_writes (effects (SA1.analyzeStatement_resume o))
  = [ if succeeds o then "results" else "upload" ].
Proof.
  destruct o as [t | [st [t | j]]]; try reflexivity.
  unfold SA1.analyzeStatement_resume, SA1.analyzeStatement_try, succeeds.
  simpl. destruct (ok _); simpl; [reflexivity|].
  destruct j; reflexivity.
Qed.

Lemma resume2_state_writes (o : FetchOutcome) :
  state_writes (effects (SA2.analyzeStatement_resume o))
  = [ if succeeds o then "results" else "upload" ].
Proof.
  destruct o as [t | [st [t | j]]]; try reflexivity.
  unfold SA2.analyzeStatement_resume, SA2.analyzeStatement_try, succeeds.
  simpl. destruct (ok _); simpl; [reflexivity|].
  destruct j; reflexivity.
Qed.

Lemma resume1_fetches (o : FetchOutcome) :
  fetches (effects (SA1.analyzeStatement_resume o)) = [].
Proof.
  destruct o as [t | [st [t | j]]]; try reflexivity.
  unfold SA1.analyzeStatement_resume, SA1.analyzeStatement_try.
  simpl. destruct (ok _); simpl; [reflexivity|].
  destruct j; reflexivity.
Qed.

Lemma resume2_fetches (o : FetchOutcome) :
  fetches (effects (SA2.analyzeStatement_resume o)) = [].
Proof.
  destruct o as [t | [st [t | j]]]; try reflexivity.
  unfold SA2.analyzeStatement_resume, SA2.analyzeStatement_try.
  simpl. destruct (ok _); simpl; [reflexivity|].
  destruct j; reflexivity.
Qed.

(** ** How effect lists act on the state *)

Lemma analysisState_apply1 (es : list Effect) (st : SA1.State) :
  SA1.analysisState (SA1.apply_effects es st)
  = last (state_writes es) (SA1.analysisState st).
Proof.
  revert st. induction es as [|e es IH]; intro st; [reflexivity|].
  unfold SA1.apply_effects in *. simpl fold_left. rewrite IH.
  destruct e; cbn [state_writes SA1.apply_effect SA1.analysisState];
    try reflexivity.
  rewrite last_cons_default. reflexivity.
Qed.

Lemma analysisState_apply2 (es : list Effect) (st : SA2.State) :
  SA2.analysisState (SA2.apply_effects es st)
  = last (state_writes es) (SA2.analysisState st).
Proof.
  revert st. induction es as [|e es IH]; intro st; [reflexivity|].
  unfold SA2.apply_effects in *. simpl fold_left. rewrite IH.
  destruct e; cbn [state_writes SA2.apply_effect SA2.analysisState];
    try reflexivity.
  rewrite last_cons_default. reflexivity.
Qed.

Lemma in_flight_apply1 (es : list Effect) (st : SA1.State) :
  SA1.in_flight (SA1.apply_effects es st) = (SA1.in_flight st ++ fetches es)%list.
Proof.
  revert st. induction es as [|e es IH]; intro st.
  - simpl. rewrite app_nil_r. reflexivity.
  - unfold SA1.apply_effects in *. simpl fold_left. rewrite IH.
    destruct e; simpl; try reflexivity.
    rewrite <- app_assoc. reflexivity.
Qed.

Lemma in_flight_apply2 (es : list Effect) (st : SA2.State) :
  SA2.in_flight (SA2.apply_effects es st) = (SA2.in_flight st ++ fetches es)%list.
Proof.
  revert st. induction es as [|e es IH]; intro st.
  - simpl. rewrite app_nil_r. reflexivity.
  - unfold SA2.apply_effects in *. simpl fold_left. rewrite IH.
    destruct e; simpl; try reflexivity.
    rewrite <- app_assoc. reflexivity.
Qed.

Lemma analysisState_settled1 (e : SA1.Event) (st : SA1.State) :
  SA1.analysisState (SA1.settled e st) = SA1.analysisState st.
Proof. destruct e; reflexivity. Qed.

Lemma analysisState_settled2 (e : SA2.Event) (st : SA2.State) :
  SA2.analysisState (SA2.settled e st) = SA2.analysisState st.
Proof. destruct e; reflexivity. Qed.

(** ** The analysis states a handler writes *)

Lemma handle1_state_writes (env : Env) (st : SA1.State) (e : SA1.Event) :
  state_writes (SA1.handle env st e) = []
  \/ state_writes (SA1.handle env st e) = [ "upload" ]
  \/ state_writes (SA1.handle env st e) = [ "analyzing" ]
  \/ (state_writes (SA1.handle env st e) = [ "results" ]
      /\ exists n o, e = SA1.Settle n o /\ succeeds o = true
                     /\ nth_error (SA1.in_flight st) n <> None).
Proof.
  destruct e as [| v | files | | files | n o]; simpl.
  - left; reflexivity.
  - left; reflexivity.
  - unfold SA1.handleFileSelect.
    destruct (first_file files) as [f|]; [|right; left; reflexivity].
    destruct (String.eqb _ _); [right; right; left|right; left]; reflexivity.
  - left; reflexivity.
  - unfold SA1.handleDrop.
    destruct (first_file files) as [f|]; [|right; left; reflexivity].
    destruct (String.eqb _ _); [right; right; left|right; left]; reflexivity.
  - destruct (nth_error (SA1.in_flight st) n) eqn:Hn; [|left; reflexivity].
    rewrite resume1_state_writes.
    destruct (succeeds o) eqn:Ho; [|right; left; reflexivity].
    right; right; right. split; [reflexivity|].
    exists n, o. repeat split; trivial. rewrite Hn. discriminate.
Qed.

Lemma resetState_state_writes (st : SA2.State) :
  state_writes (SA2.resetState st) = [ "upload" ].
Proof.
  unfold SA2.resetState. destruct (SA2.fileInputRef_current st); reflexivity.
Qed.

Lemma handle2_state_writes (env : Env) (st : SA2.State) (e : SA2.Event) :
  state_writes (SA2.handle env st e) = []
  \/ state_writes (SA2.handle env st e) = [ "upload" ]
  \/ state_writes (SA2.handle env st e) = [ "analyzing" ]
  \/ (state_writes (SA2.handle env st e) = [ "results" ]
      /\ exists n o, e = SA2.Settle n o /\ succeeds o = true
                     /\ nth_error (SA2.in_flight st) n <> None).
Proof.
  destruct e as [v | files | | files | | n o]; cbn [SA2.handle].
  - right; left. unfold SA2.handleViewChange.
    rewrite state_writes_app, resetState_state_writes. reflexivity.
  - unfold SA2.handleFileSelect.
    destruct (first_file files) as [f|]; [|left; reflexivity].
    destruct (_ || _); [right; right; left|left]; reflexivity.
  - left; reflexivity.
  - unfold SA2.handleDrop.
    destruct (first_file files) as [f|]; [|left; reflexivity].
    destruct (_ || _); [right; right; left|left]; reflexivity.
  - left; reflexivity.
  - destruct (nth_error (SA2.in_flight st) n) eqn:Hn; [|left; reflexivity].
    rewrite resume2_state_writes.
    destruct (succeeds o) eqn:Ho; [|right; left; reflexivity].
    right; right; right. split; [reflexivity|].
    exists n, o. repeat split; trivial. rewrite Hn. discriminate.
Qed.

Lemma step1_keeps_three_states (env : Env) (st : SA1.State) (e : SA1.Event) :
  AnalysisState_ok (SA1.analysisState st) ->
  AnalysisState_ok (SA1.analysisState (SA1.step env st e)).
Proof.
  intro Hst. unfold SA1.step.
  rewrite analysisState_apply1, analysisState_settled1.
  destruct (handle1_state_writes env st e) as [H | [H | [H | [H _]]]];
    rewrite H; simpl; unfold AnalysisState_ok; auto.
Qed.

Lemma step2_keeps_three_states (env : Env) (st : SA2.State) (e : SA2.Event) :
  AnalysisState_ok (SA2.analysisState st) ->
  AnalysisState_ok (SA2.analysisState (SA2.step env st e)).
Proof.
  intro Hst. unfold SA2.step.
  rewrite analysisState_apply2, analysisState_settled2.
  destruct (handle2_state_writes env st e) as [H | [H | [H | [H _]]]];
    rewrite H; simpl; unfold AnalysisState_ok; auto.
Qed.

(** C4.  The analysis state is one of ['upload'], ['analyzing'],
    ['results'] at every point either component can reach, whatever the
    events and their order, and every single operation - mounting, a view
    change, choosing or dropping a file, dragging over, dismissing the
    error, the settling of a request - keeps it among the three. *)
Theorem analysisState_three_states :
  (forall env es, AnalysisState_ok (SA1.analysisState (SA1.run env SA1.init es)))
  /\ (forall env es, AnalysisState_ok (SA2.analysisState (SA2.run env SA2.init es)))
  /\ (forall env st e,
        AnalysisState_ok (SA1.analysisState st) ->
        AnalysisState_ok (SA1.analysisState (SA1.step env st e)))
  /\ (forall env st e,
        AnalysisState_ok (SA2.analysisState st) ->
        AnalysisState_ok (SA2.analysisState (SA2.step env st e))).
Proof.
  split; [|split; [|split]].
  - intros env es.
    assert (G : forall st, AnalysisState_ok (SA1.analysisState st) ->
                           AnalysisState_ok (SA1.analysisState (SA1.run env st es))).
    { induction es as [|e es IH]; intros st Hst; [exact Hst|].
      apply IH. apply step1_keeps_three_states. exact Hst. }
    apply G. left. reflexivity.
  - intros env es.
    assert (G : forall st, AnalysisState_ok (SA2.analysisState st) ->
                           AnalysisState_ok (SA2.analysisState (SA2.run env st es))).
    { induction es as [|e es IH]; intros st Hst; [exact Hst|].
      apply IH. apply step2_keeps_three_states. exact Hst. }
    apply G. left. reflexivity.
  - intros env st e. apply step1_keeps_three_states.
  - intros env st e. apply step2_keeps_three_states.
Qed.

Lemma analysisState_three_states_witness :
  AnalysisState_ok
    (SA2.analysisState
       (SA2.step env_unset SA2.init (SA2.FileSelect (Some [statement_pdf])))).
Proof.
  apply (proj2 (proj2 (proj2 analysisState_three_states))).
  left. reflexivity.
Defined.

(** ** The view dispatcher *)

(** C6.  [renderCurrentView] gives the PhonePe analysis screen exactly
    when the current view is ['phonepe-analysis'], the Kotak analysis
    screen exactly when it is ['kotak-analysis'] (each with the file, the
    analysis state and the results of the component), and the home screen
    for ['home'] and for every view that is not the label of another case. *)
Theorem renderCurrentView_dispatch (st : SA1.State) :
  (is_PhonePe (SA1.renderCurrentView st) = true
   <-> SA1.currentView st = "phonepe-analysis")
  /\ (is_Kotak (SA1.renderCurrentView st) = true
      <-> SA1.currentView st = "kotak-analysis")
  /\ (SA1.currentView st = "phonepe-analysis" ->
      SA1.renderCurrentView st = SA1.PhonePeAnalysisView (props_of st))
  /\ (SA1.currentView st = "kotak-analysis" ->
      SA1.renderCurrentView st = SA1.KotakAnalysisView (props_of st))
  /\ (SA1.currentView st = "home" -> SA1.renderCurrentView st = SA1.HomeView)
  /\ (~ In (SA1.currentView st) other_cases ->
      SA1.renderCurrentView st = SA1.HomeView).
Proof.
  unfold SA1.renderCurrentView, props_of, other_cases. cbv zeta.
  generalize (SA1.currentView st) as v. intro v.
  repeat split.
  - by_cases_on_view; cbn; congruence.
  - intros ->. reflexivity.
  - by_cases_on_view; cbn; congruence.
  - intros ->. reflexivity.
  - intros ->. reflexivity.
  - intros ->. reflexivity.
  - intros ->. reflexivity.
  - intro Hv. by_cases_on_view; trivial; exfalso; apply Hv; subst v; cbn; tauto.
Qed.

Lemma renderCurrentView_dispatch_witness :
  SA1.renderCurrentView (SA1.run env_unset SA1.init [SA1.Mount; SA1.ChangeView "history"])
  = SA1.HomeView.
Proof.
  apply (proj2 (proj2 (proj2 (proj2 (proj2
          (renderCurrentView_dispatch
             (SA1.run env_unset SA1.init [SA1.Mount; SA1.ChangeView "history"]))))))).
  cbn. intros [H | [H | [H | [H | [H | [H | [H | [H | [H | []]]]]]]]]];
    discriminate H.
Defined.

(** ** The upload handlers of the first component *)

(** C8.  In the first component [handleFileSelect] and [handleDrop] hand a
    file to [analyzeStatement] only when a file is there and its type is
    ['application/pdf']: then they store it as the selected file and start
    the analysis.  For any other input they send no request and set the
    analysis state to ['upload']. *)
Theorem upload_handlers_pdf_only (env : Env) (st : SA1.State)
        (files : option (list File)) :
  (forall f, first_file files = Some f -> file_type f = "application/pdf" ->
      SA1.handleFileSelect env st files
      = SetSelectedFile (Some f) :: SA1.analyzeStatement_begin env (SA1.currentView st) f
      /\ SA1.handleDrop env st files
         = PreventDefault :: StopPropagation :: SetSelectedFile (Some f)
             :: SA1.analyzeStatement_begin env (SA1.currentView st) f)
  /\ ((forall f, first_file files = Some f -> file_type f <> "application/pdf") ->
      fetches (SA1.handleFileSelect env st files) = []
      /\ fetches (SA1.handleDrop env st files) = []
      /\ state_writes (SA1.handleFileSelect env st files) = [ "upload" ]
      /\ state_writes (SA1.handleDrop env st files) = [ "upload" ]
      /\ SA1.analysisState (SA1.step env st (SA1.FileSelect files)) = "upload"
      /\ SA1.analysisState (SA1.step env st (SA1.Drop files)) = "upload")
  /\ (fetches (SA1.handleFileSelect env st files) <> []
      \/ fetches (SA1.handleDrop env st files) <> [] ->
      exists f, first_file files = Some f /\ file_type f = "application/pdf").
Proof.
  unfold SA1.step. cbn [SA1.handle SA1.settled].
  rewrite !analysisState_apply1.
  unfold SA1.handleFileSelect, SA1.handleDrop.
  destruct (first_file files) as [f|].
  - destruct (String.eqb_spec (file_type f) "application/pdf") as [Hpdf | Hpdf].
    + split; [|split].
      * intros f' Hf' _. injection Hf' as <-. split; reflexivity.
      * intro Hno. exfalso. apply (Hno f); trivial.
      * intros _. exists f. split; trivial.
    + split; [|split].
      * intros f' Hf' Hty. injection Hf' as <-. contradiction.
      * intros _. repeat split.
      * cbn. intros [H | H]; congruence.
  - split; [|split].
    + intros f' Hf'. discriminate Hf'.
    + intros _. repeat split.
    + cbn. intros [H | H]; congruence.
Qed.

Lemma upload_handlers_pdf_only_witness :
  fetches (SA1.handleFileSelect env_unset SA1.init
             (Some [mkFile "notes.txt" "text/plain"])) = []
  /\ SA1.handleDrop env_unset SA1.init (Some [statement_pdf])
     = PreventDefault :: StopPropagation :: SetSelectedFile (Some statement_pdf)
         :: SA1.analyzeStatement_begin env_unset "home" statement_pdf.
Proof.
  split.
  - apply (proj1 (proj2 (upload_handlers_pdf_only env_unset SA1.init
                          (Some [mkFile "notes.txt" "text/plain"])))).
    intros f Hf. injection Hf as <-. cbn. discriminate.
  - apply (proj1 (upload_handlers_pdf_only env_unset SA1.init
                    (Some [statement_pdf])) statement_pdf); reflexivity.
Defined.

(** The upload handlers of the second component look at the current
    view, not at the type of the file: in the Kotak or PhonePe view any
    file is stored and analyzed, and in every other case they write no
    state at all. *)
Remark upload_handlers2_view_only (env : Env) (st : SA2.State)
       (files : option (list File)) :
  (forall f, first_file files = Some f ->
             SA2.currentView st = "kotak" \/ SA2.currentView st = "phonepe" ->
             SA2.handleFileSelect env st files
             = SetSelectedFile (Some f)
                 :: SA2.analyzeStatement_begin env (Some f) (SA2.currentView st))
  /\ (accepted2 st (SA2.FileSelect files) = false ->
      SA2.handleFileSelect env st files = []
      /\ SA2.handleDrop env st files = [ PreventDefault ]).
Proof.
  unfold SA2.handleFileSelect, SA2.handleDrop, accepted2.
  destruct (first_file files) as [f|].
  - split.
    + intros f' Hf' Hv. injection Hf' as <-.
      destruct Hv as [-> | ->]; reflexivity.
    + intros ->. split; reflexivity.
  - split; [discriminate|]. intros _. split; reflexivity.
Qed.

(** C9.  When [analyzeStatement] of the first component runs while the
    current view is neither ['phonepe-analysis'] nor ['kotak-analysis'],
    the one request it sends carries [platform] = ['phonepe']. *)
Theorem platform_defaults_to_phonepe (env : Env) (currentView : string) (file : File) :
  currentView <> "phonepe-analysis" ->
  currentView <> "kotak-analysis" ->
  exists req,
    fetches (SA1.analyzeStatement_begin env currentView file) = [ req ]
    /\ req_body req = [ ("file", FormFile file); ("platform", FormString "phonepe") ].
Proof.
  intros Hp Hk. unfold SA1.analyzeStatement_begin.
  destruct (String.eqb_spec currentView "phonepe-analysis"); [contradiction|].
  destruct (String.eqb_spec currentView "kotak-analysis"); [contradiction|].
  eexists. split; reflexivity.
Qed.

Lemma platform_defaults_to_phonepe_witness :
  exists req,
    fetches (SA1.analyzeStatement_begin env_unset "home" statement_pdf) = [ req ]
    /\ req_body req
       = [ ("file", FormFile statement_pdf); ("platform", FormString "phonepe") ].
Proof.
  apply (platform_defaults_to_phonepe env_unset "home" statement_pdf); discriminate.
Defined.

(** ** View changes of the second component *)

Lemma apply_resetState (st : SA2.State) :
  SA2.apply_effects (SA2.resetState st) st
  = SA2.mkState (SA2.currentView st) None "upload" JNull None
                (match SA2.fileInputRef_current st with
                 | Some _ => Some ""
                 | None => None
                 end)
                (SA2.in_flight st).
Proof.
  unfold SA2.resetState. destruct (SA2.fileInputRef_current st) eqn:Href.
  - cbn. rewrite Href. reflexivity.
  - cbn. rewrite Href. reflexivity.
Qed.

Lemma apply_effects_app2 (es1 es2 : list Effect) (st : SA2.State) :
  SA2.apply_effects (es1 ++ es2) st = SA2.apply_effects es2 (SA2.apply_effects es1 st).
Proof. unfold SA2.apply_effects. apply fold_left_app. Qed.

Lemma resume2_no_view_change (o : FetchOutcome) (v : string) :
  ~ In (SetCurrentView v) (effects (SA2.analyzeStatement_resume o)).
Proof.
  destruct o as [t | [s [t | j]]];
    try (cbn; intuition discriminate).
  unfold SA2.analyzeStatement_resume, SA2.analyzeStatement_try.
  simpl. destruct (ok _); simpl; [intuition discriminate|].
  destruct j; cbn; intuition discriminate.
Qed.

(** C10.  In the second component the only handler that sets the current
    view is [handleViewChange], which runs [resetState] first: whenever an
    event sets the view, what the handler did is [resetState] followed by
    that one [setCurrentView], and right after it the component is in the
    new view with no selected file, analysis state ['upload'], no analysis
    results and no error message. *)
Theorem view_change_resets (env : Env) (st : SA2.State) (e : SA2.Event) (v : string) :
  In (SetCurrentView v) (SA2.handle env st e) ->
  SA2.handle env st e = (SA2.resetState st ++ [ SetCurrentView v ])%list
  /\ SA2.currentView (SA2.step env st e) = v
  /\ SA2.selectedFile (SA2.step env st e) = None
  /\ SA2.analysisState (SA2.step env st e) = "upload"
  /\ SA2.analysisResults (SA2.step env st e) = JNull
  /\ SA2.errorMessage (SA2.step env st e) = None.
Proof.
  intro Hin.
  assert (He : e = SA2.ViewChange v).
  { destruct e as [v' | files | | files | | n o]; cbn [SA2.handle] in Hin.
    - unfold SA2.handleViewChange, SA2.resetState in Hin.
      apply in_app_or in Hin. destruct Hin as [Hin | [Hin | []]].
      + apply in_app_or in Hin. destruct Hin as [Hin | Hin].
        * cbn in Hin. intuition discriminate.
        * destruct (SA2.fileInputRef_current st); cbn in Hin; intuition discriminate.
      + injection Hin as ->. reflexivity.
    - unfold SA2.handleFileSelect in Hin.
      destruct (first_file files); [|contradiction].
      destruct (_ || _); cbn in Hin; intuition discriminate.
    - cbn in Hin. intuition discriminate.
    - unfold SA2.handleDrop in Hin.
      destruct (first_file files); [cbn in Hin|cbn in Hin; intuition discriminate].
      destruct (_ || _); cbn in Hin; intuition discriminate.
    - cbn in Hin. intuition discriminate.
    - destruct (nth_error _ _); [|contradiction].
      exfalso. exact (resume2_no_view_change _ _ Hin). }
  subst e. unfold SA2.step. cbn [SA2.handle SA2.settled].
  unfold SA2.handleViewChange.
  rewrite apply_effects_app2, apply_resetState.
  repeat split.
Qed.

Lemma view_change_resets_witness :
  SA2.analysisState
    (SA2.step env_unset
       (SA2.run env_unset SA2.init
          [ SA2.ViewChange "kotak"; SA2.FileSelect (Some [statement_pdf]);
            SA2.Settle 0 answer_ok ])
       (SA2.ViewChange "home")) = "upload"
  /\ SA2.analysisResults
       (SA2.step env_unset
          (SA2.run env_unset SA2.init
             [ SA2.ViewChange "kotak"; SA2.FileSelect (Some [statement_pdf]);
               SA2.Settle 0 answer_ok ])
          (SA2.ViewChange "home")) = JNull.
Proof.
  destruct (view_change_resets env_unset
              (SA2.run env_unset SA2.init
                 [ SA2.ViewChange "kotak"; SA2.FileSelect (Some [statement_pdf]);
                   SA2.Settle 0 answer_ok ])
              (SA2.ViewChange "home") "home")
    as (_ & _ & _ & Hstate & Hresults & _).
  - cbn. do 4 right. left. reflexivity.
  - split; assumption.
Defined.

(** ** The request *)

(** Every request either component sends, in any state and on any
    event, is a POST whose body is a form of exactly two entries: the
    file that the same handler stores as the selected file, under [file],
    and the discriminator ([platform] in the first component, [bank] in
    the second), which is ['phonepe'] or ['kotak']. *)
Lemma request_method_and_body :
  (forall env st e req,
      In req (fetches (SA1.handle env st e)) ->
      req_method req = "POST"
      /\ exists file d,
          req_body req = [ ("file", FormFile file); ("platform", FormString d) ]
          /\ (d = "phonepe" \/ d = "kotak")
          /\ In (SetSelectedFile (Some file)) (SA1.handle env st e))
  /\ (forall env st e req,
        In req (fetches (SA2.handle env st e)) ->
        req_method req = "POST"
        /\ exists file d,
            req_body req = [ ("file", FormFile file); ("bank", FormString d) ]
            /\ (d = "phonepe" \/ d = "kotak")
            /\ In (SetSelectedFile (Some file)) (SA2.handle env st e)).
Proof.
  split.
  - intros env st e req Hin.
    assert (Hbegin : forall f,
               In req (fetches (SA1.analyzeStatement_begin env (SA1.currentView st) f)) ->
               req_method req = "POST"
               /\ exists d,
                   req_body req = [ ("file", FormFile f); ("platform", FormString d) ]
                   /\ (d = "phonepe" \/ d = "kotak")).
    { intros f [<- | []]. cbn.
      split; [reflexivity|].
      destruct (String.eqb _ "phonepe-analysis"); [eauto|].
      destruct (String.eqb _ "kotak-analysis"); eauto. }
    destruct e as [| v | files | | files | n o]; cbn [SA1.handle] in *;
      try contradiction.
    + unfold SA1.handleFileSelect in *.
      destruct (first_file files) as [f|]; [|contradiction].
      destruct (String.eqb _ _); [|contradiction].
      destruct (Hbegin f Hin) as (Hm & d & Hb & Hd).
      split; trivial. exists f, d. repeat split; trivial. left; reflexivity.
    + unfold SA1.handleDrop in *.
      destruct (first_file files) as [f|]; [|contradiction].
      destruct (String.eqb _ _); [|contradiction].
      destruct (Hbegin f Hin) as (Hm & d & Hb & Hd).
      split; trivial. exists f, d. repeat split; trivial.
      right; right; left; reflexivity.
    + destruct (nth_error _ _); [|contradiction].
      rewrite resume1_fetches in Hin. contradiction.
  - intros env st e req Hin.
    destruct e as [v | files | | files | | n o]; cbn [SA2.handle] in *;
      try contradiction.
    + unfold SA2.handleViewChange in Hin.
      rewrite fetches_app in Hin. unfold SA2.resetState in Hin.
      destruct (SA2.fileInputRef_current st); contradiction.
    + unfold SA2.handleFileSelect in *.
      destruct (first_file files) as [f|]; [|contradiction].
      destruct (String.eqb_spec (SA2.currentView st) "kotak") as [Hk|Hk];
        [|destruct (String.eqb_spec (SA2.currentView st) "phonepe") as [Hp|Hp]];
        cbn [orb] in *; try contradiction;
        destruct Hin as [<- | []]; cbn;
        (split; trivial; exists f, (SA2.currentView st);
         repeat split; auto).
    + unfold SA2.handleDrop in *.
      destruct (first_file files) as [f|]; [|contradiction].
      destruct (String.eqb_spec (SA2.currentView st) "kotak") as [Hk|Hk];
        [|destruct (String.eqb_spec (SA2.currentView st) "phonepe") as [Hp|Hp]];
        cbn [orb] in *; try contradiction;
        destruct Hin as [<- | []]; cbn;
        (split; trivial; exists f, (SA2.currentView st);
         repeat split; auto).
    + destruct (nth_error _ _); [|contradiction].
      rewrite resume2_fetches in Hin. contradiction.
Qed.

Lemma replace_trailing_slash_app (s : string) :
  replace_trailing_slash (s ++ "/") = s.
Proof.
  induction s as [|c s IH]; [reflexivity|].
  cbn [append replace_trailing_slash]. rewrite IH.
  destruct s; reflexivity.
Qed.

Lemma append_slash_not_empty (s : string) : s ++ "/" <> "".
Proof. destruct s; discriminate. Qed.

Lemma str_or_some (s d : string) : s <> "" -> str_or (Some s) d = s.
Proof.
  intro Hs. unfold str_or. destruct (String.eqb_spec s ""); [contradiction|reflexivity].
Qed.

(** C2 (code defect).  The second component appends [/analyze] to the
    configured URL as it is, so a URL configured with a trailing slash is
    posted to under [//analyze]; the first component removes that slash
    and posts to [/analyze].  At the configured URL
    [https://api.example.org/], a file chosen in the Kotak view of the
    second component is posted to [https://api.example.org//analyze],
    the same file in the first component to
    [https://api.example.org/analyze]. *)
Theorem second_component_posts_to_double_slash :
  (forall s f bank,
      fetches (SA2.analyzeStatement_begin (mkEnv (Some (s ++ "/"))) (Some f) bank)
      = [ mkRequest ((s ++ "/") ++ "/analyze") "POST"
            [ ("file", FormFile f); ("bank", FormString bank) ] ])
  /\ (forall s v f,
        map req_url (fetches (SA1.analyzeStatement_begin (mkEnv (Some (s ++ "/"))) v f))
        = [ s ++ "/analyze" ])
  /\ fetches (SA2.handle slash_configured
                (SA2.run slash_configured SA2.init [ SA2.ViewChange "kotak" ])
                (SA2.FileSelect (Some [statement_pdf])))
     = [ mkRequest "https://api.example.org//analyze" "POST"
           [ ("file", FormFile statement_pdf); ("bank", FormString "kotak") ] ]
  /\ fetches (SA1.handle slash_configured
                (SA1.run slash_configured SA1.init
                   [ SA1.Mount; SA1.ChangeView "kotak-analysis" ])
                (SA1.FileSelect (Some [statement_pdf])))
     = [ mkRequest "https://api.example.org/analyze" "POST"
           [ ("file", FormFile statement_pdf); ("platform", FormString "kotak") ] ].
Proof.
  repeat match goal with |- _ /\ _ => split end; try reflexivity.
  - intros s f bank. unfold SA2.analyzeStatement_begin, SA2.apiEndpoint.
    cbn [NEXT_PUBLIC_API_URL fetches].
    rewrite (str_or_some _ _ (append_slash_not_empty s)). reflexivity.
  - intros s v f. unfold SA1.analyzeStatement_begin, SA1.backendUrl.
    cbn [NEXT_PUBLIC_API_URL fetches map req_url].
    rewrite (str_or_some _ _ (append_slash_not_empty s)).
    rewrite replace_trailing_slash_app. reflexivity.
Qed.


(** ** What an answer does *)









(** ** The order of the analysis states *)

Lemma in_flight_settled1 (e : SA1.Event) (st : SA1.State) :
  SA1.in_flight (SA1.settled e st)
  = match e with
    | SA1.Settle n _ => remove_nth n (SA1.in_flight st)
    | _ => SA1.in_flight st
    end.
Proof. destruct e; reflexivity. Qed.

Lemma in_flight_settled2 (e : SA2.Event) (st : SA2.State) :
  SA2.in_flight (SA2.settled e st)
  = match e with
    | SA2.Settle n _ => remove_nth n (SA2.in_flight st)
    | _ => SA2.in_flight st
    end.
Proof. destruct e; reflexivity. Qed.

Lemma upload_offered_upload (st : SA1.State) :
  SA1.upload_offered st = true -> SA1.analysisState st = "upload".
Proof.
  unfold SA1.upload_offered, SA1.render, SA1.renderCurrentView, SA1.renderContent.
  destruct (negb (SA1.mounted st)); [discriminate|].
  by_cases_on_render; trivial; discriminate.
Qed.

Lemma step1_results_only_by_answer (env : Env) (st : SA1.State) (e : SA1.Event) :
  SA1.analysisState (SA1.step env st e) = "results" ->
  SA1.analysisState st <> "results" ->
  exists n o, e = SA1.Settle n o /\ succeeds o = true
              /\ nth_error (SA1.in_flight st) n <> None.
Proof.
  unfold SA1.step. rewrite analysisState_apply1, analysisState_settled1.
  destruct (handle1_state_writes env st e) as [H | [H | [H | [H Hex]]]];
    rewrite H; cbn; intros Hres Hnot; congruence.
Qed.

Lemma step2_results_only_by_answer (env : Env) (st : SA2.State) (e : SA2.Event) :
  SA2.analysisState (SA2.step env st e) = "results" ->
  SA2.analysisState st <> "results" ->
  exists n o, e = SA2.Settle n o /\ succeeds o = true
              /\ nth_error (SA2.in_flight st) n <> None.
Proof.
  unfold SA2.step. rewrite analysisState_apply2, analysisState_settled2.
  destruct (handle2_state_writes env st e) as [H | [H | [H | [H Hex]]]];
    rewrite H; cbn; intros Hres Hnot; congruence.
Qed.

Lemma one_in_flight1_upload (st : SA1.State) :
  one_in_flight1 st -> SA1.analysisState st = "upload" -> SA1.in_flight st = [].
Proof.
  intros [H | [H _]] Hu; [exact H|]. rewrite Hu in H. discriminate H.
Qed.

Lemma one_in_flight2_upload (st : SA2.State) :
  one_in_flight2 st -> SA2.analysisState st = "upload" -> SA2.in_flight st = [].
Proof.
  intros [H | [H _]] Hu; [exact H|]. rewrite Hu in H. discriminate H.
Qed.

Lemma step1_one_in_flight (env : Env) (st : SA1.State) (e : SA1.Event) :
  one_in_flight1 st -> SA1.enabled st e = true -> one_in_flight1 (SA1.step env st e).
Proof.
  intros Hinv Hen. unfold one_in_flight1, SA1.step.
  rewrite in_flight_apply1, in_flight_settled1, analysisState_apply1,
    analysisState_settled1.
  destruct e as [| v | files | | files | n o]; cbn [SA1.handle SA1.enabled] in *.
  - cbn. rewrite app_nil_r. exact Hinv.
  - cbn. rewrite app_nil_r. exact Hinv.
  - rewrite (one_in_flight1_upload st Hinv (upload_offered_upload st Hen)).
    unfold SA1.handleFileSelect.
    destruct (first_file files) as [f|]; [|left; reflexivity].
    destruct (String.eqb _ _); [right|left; reflexivity].
    cbn. split; [reflexivity|eauto].
  - cbn. rewrite app_nil_r. exact Hinv.
  - rewrite (one_in_flight1_upload st Hinv (upload_offered_upload st Hen)).
    unfold SA1.handleDrop.
    destruct (first_file files) as [f|]; [|left; reflexivity].
    destruct (String.eqb _ _); [right|left; reflexivity].
    cbn. split; [reflexivity|eauto].
  - destruct (nth_error (SA1.in_flight st) n) eqn:Hn; [|discriminate].
    rewrite resume1_fetches, app_nil_r. left.
    destruct Hinv as [H | [_ [q H]]]; rewrite H in *.
    + destruct n; discriminate Hn.
    + destruct n as [|[|n]]; [reflexivity|discriminate Hn|discriminate Hn].
Qed.

Lemma step1_no_direct_jump (env : Env) (st : SA1.State) (e : SA1.Event) :
  one_in_flight1 st -> SA1.enabled st e = true ->
  SA1.analysisState st = "upload" ->
  SA1.analysisState (SA1.step env st e) <> "results".
Proof.
  intros Hinv Hen Hu Hres.
  destruct (step1_results_only_by_answer env st e Hres) as (n & o & _ & _ & Hn).
  - rewrite Hu. discriminate.
  - rewrite (one_in_flight1_upload st Hinv Hu) in Hn.
    apply Hn. destruct n; reflexivity.
Qed.

Lemma trace1_head (env : Env) (st : SA1.State) (es : list SA1.Event) :
  exists rest, SA1.analysisState_trace env st es = SA1.analysisState st :: rest.
Proof. destruct es; eexists; reflexivity. Qed.

Lemma trace2_head (env : Env) (st : SA2.State) (es : list SA2.Event) :
  exists rest, SA2.analysisState_trace env st es = SA2.analysisState st :: rest.
Proof. destruct es; eexists; reflexivity. Qed.

Lemma direct_jump_cons (a b : string) (rest : list string) :
  direct_jump (a :: b :: rest)
  = (String.eqb a "upload" && String.eqb b "results") || direct_jump (b :: rest).
Proof. reflexivity. Qed.

Lemma offered_run1_no_direct_jump (env : Env) (es : list SA1.Event) :
  forall st, one_in_flight1 st ->
             SA1.offered_run env st es = true ->
             direct_jump (SA1.analysisState_trace env st es) = false.
Proof.
  induction es as [|e es IH]; intros st Hinv Hrun; [reflexivity|].
  cbn [SA1.offered_run] in Hrun. apply andb_true_iff in Hrun.
  destruct Hrun as [Hen Hrun].
  cbn [SA1.analysisState_trace].
  destruct (trace1_head env (SA1.step env st e) es) as [rest Hrest].
  specialize (IH (SA1.step env st e) (step1_one_in_flight env st e Hinv Hen) Hrun).
  rewrite Hrest in *. rewrite direct_jump_cons, IH, orb_false_r.
  destruct (String.eqb_spec (SA1.analysisState st) "upload") as [Hu | Hu];
    [|reflexivity].
  destruct (String.eqb_spec (SA1.analysisState (SA1.step env st e)) "results")
    as [Hr | Hr]; [|reflexivity].
  exfalso. exact (step1_no_direct_jump env st e Hinv Hen Hu Hr).
Qed.

Lemma enabled2_upload (st : SA2.State) (e : SA2.Event) :
  SA2.enabled st e = true ->
  match e with
  | SA2.FileSelect _ | SA2.DragOver | SA2.Drop _ | SA2.DismissError =>
      SA2.analysisState st = "upload"
  | _ => True
  end.
Proof.
  unfold SA2.enabled, SA2.renderContent, SA2.KotakAnalysisView_renderContent.
  destruct e; trivial; by_cases_on_render; trivial; discriminate.
Qed.

Lemma step2_one_in_flight (env : Env) (st : SA2.State) (e : SA2.Event) :
  one_in_flight2 st -> SA2.enabled st e = true ->
  match e with SA2.ViewChange _ => SA2.in_flight st = [] | _ => True end ->
  one_in_flight2 (SA2.step env st e).
Proof.
  intros Hinv Hen Hquiet. unfold one_in_flight2, SA2.step.
  rewrite in_flight_apply2, in_flight_settled2, analysisState_apply2,
    analysisState_settled2.
  pose proof (enabled2_upload st e Hen) as Hup.
  destruct e as [v | files | | files | | n o]; cbn [SA2.handle] in *.
  - left. rewrite Hquiet. unfold SA2.handleViewChange, SA2.resetState.
    destruct (SA2.fileInputRef_current st); reflexivity.
  - rewrite (one_in_flight2_upload st Hinv Hup).
    unfold SA2.handleFileSelect.
    destruct (first_file files) as [f|]; [|left; reflexivity].
    destruct (_ || _); [right|left; reflexivity].
    cbn. split; [reflexivity|eauto].
  - cbn. rewrite app_nil_r. exact Hinv.
  - rewrite (one_in_flight2_upload st Hinv Hup).
    unfold SA2.handleDrop.
    destruct (first_file files) as [f|]; [|left; reflexivity].
    destruct (_ || _); [right|left; reflexivity].
    cbn. split; [reflexivity|eauto].
  - cbn. rewrite app_nil_r. exact Hinv.
  - cbn [SA2.enabled] in Hen.
    assert (Hn : nth_error (SA2.in_flight st) n <> None).
    { destruct (SA2.renderContent st), (nth_error (SA2.in_flight st) n);
        discriminate. }
    destruct (nth_error (SA2.in_flight st) n) eqn:Hn'; [|congruence].
    rewrite resume2_fetches, app_nil_r. left.
    destruct Hinv as [H | [_ [q H]]]; rewrite H in *.
    + destruct n; discriminate Hn'.
    + destruct n as [|[|n]]; [reflexivity|discriminate Hn'|discriminate Hn'].
Qed.

Lemma step2_no_direct_jump (env : Env) (st : SA2.State) (e : SA2.Event) :
  one_in_flight2 st ->
  SA2.analysisState st = "upload" ->
  SA2.analysisState (SA2.step env st e) <> "results".
Proof.
  intros Hinv Hu Hres.
  destruct (step2_results_only_by_answer env st e Hres) as (n & o & _ & _ & Hn).
  - rewrite Hu. discriminate.
  - rewrite (one_in_flight2_upload st Hinv Hu) in Hn.
    apply Hn. destruct n; reflexivity.
Qed.

Lemma quiet_run2_no_direct_jump (env : Env) (es : list SA2.Event) :
  forall st, one_in_flight2 st ->
             SA2.offered_run env st es = true ->
             quiet_run env st es = true ->
             direct_jump (SA2.analysisState_trace env st es) = false.
Proof.
  induction es as [|e es IH]; intros st Hinv Hrun Hquiet; [reflexivity|].
  cbn [SA2.offered_run] in Hrun. apply andb_true_iff in Hrun.
  destruct Hrun as [Hen Hrun].
  assert (Hq : match e with SA2.ViewChange _ => SA2.in_flight st = [] | _ => True end
               /\ quiet_run env (SA2.step env st e) es = true).
  { cbn [quiet_run] in Hquiet.
    destruct e; destruct (SA2.in_flight st); try discriminate; auto. }
  destruct Hq as [Hq Hquiet'].
  cbn [SA2.analysisState_trace].
  destruct (trace2_head env (SA2.step env st e) es) as [rest Hrest].
  specialize (IH (SA2.step env st e) (step2_one_in_flight env st e Hinv Hen Hq)
                 Hrun Hquiet').
  rewrite Hrest in *. rewrite direct_jump_cons, IH, orb_false_r.
  destruct (String.eqb_spec (SA2.analysisState st) "upload") as [Hu | Hu];
    [|reflexivity].
  destruct (String.eqb_spec (SA2.analysisState (SA2.step env st e)) "results")
    as [Hr | Hr]; [|reflexivity].
  exfalso. exact (step2_no_direct_jump env st e Hinv Hu Hr).
Qed.

(** C1 (as worded, refuted).  In the second component the page offers
    this run: open the Kotak view, choose a file, press back while the
    request is in flight ([resetState] puts the analysis state back to
    ['upload']), and then the answer arrives: the analysis state goes from
    ['upload'] straight to ['results']. *)
Lemma late_answer_jumps : ~ never_jumps2 env_unset late_answer_run.
Proof.
  intro H. specialize (H eq_refl). discriminate H.
Qed.

(** C1 (amended).  One invocation of [analyzeStatement] on a file sets
    the analysis state to ['analyzing'] before anything else and, when the
    request settles, to ['results'] if the answer is OK and parses and to
    ['upload'] otherwise.  In either component a step takes the analysis
    state to ['results'] only by settling an in-flight request with such
    an answer.  On every run the first component's page offers, the
    analysis state never goes from ['upload'] straight to ['results']; the
    same holds for the runs of the second component in which no view
    change happens while a request is in flight. *)
Theorem analysis_flow_order :
  (forall env v f o,
      hd_error (SA1.analyzeStatement env v f o) = Some (SetAnalysisState "analyzing")
      /\ state_writes (SA1.analyzeStatement env v f o)
         = [ "analyzing"; if succeeds o then "results" else "upload" ])
  /\ (forall env f bank o,
        hd_error (SA2.analyzeStatement env (Some f) bank o)
        = Some (SetAnalysisState "analyzing")
        /\ state_writes (SA2.analyzeStatement env (Some f) bank o)
           = [ "analyzing"; if succeeds o then "results" else "upload" ])
  /\ (forall env st e,
        SA1.analysisState (SA1.step env st e) = "results" ->
        SA1.analysisState st <> "results" ->
        exists n o, e = SA1.Settle n o /\ succeeds o = true
                    /\ nth_error (SA1.in_flight st) n <> None)
  /\ (forall env st e,
        SA2.analysisState (SA2.step env st e) = "results" ->
        SA2.analysisState st <> "results" ->
        exists n o, e = SA2.Settle n o /\ succeeds o = true
                    /\ nth_error (SA2.in_flight st) n <> None)
  /\ (forall env es, never_jumps1 env es)
  /\ (forall env es,
        SA2.offered_run env SA2.init es = true ->
        quiet_run env SA2.init es = true ->
        direct_jump (SA2.analysisState_trace env SA2.init es) = false).
Proof.
  repeat match goal with |- _ /\ _ => split end.
  - intros env v f o. split; [reflexivity|].
    unfold SA1.analyzeStatement.
    rewrite state_writes_app, resume1_state_writes. reflexivity.
  - intros env f bank o. split; [reflexivity|].
    unfold SA2.analyzeStatement.
    rewrite state_writes_app, resume2_state_writes. reflexivity.
  - exact step1_results_only_by_answer.
  - exact step2_results_only_by_answer.
  - intros env es. unfold never_jumps1.
    apply offered_run1_no_direct_jump. left. reflexivity.
  - intros env es. apply quiet_run2_no_direct_jump. left. reflexivity.
Qed.

Lemma analysis_flow_order_witness :
  direct_jump
    (SA2.analysisState_trace env_unset SA2.init
       [ SA2.ViewChange "kotak"; SA2.FileSelect (Some [statement_pdf]);
         SA2.Settle 0 answer_ok; SA2.ViewChange "home" ]) = false
  /\ direct_jump
       (SA1.analysisState_trace env_unset SA1.init
          [ SA1.Mount; SA1.ChangeView "phonepe-analysis";
            SA1.Drop (Some [statement_pdf]); SA1.ChangeView "home";
            SA1.Settle 0 answer_ok ]) = false.
Proof.
  split.
  - apply (proj2 (proj2 (proj2 (proj2 (proj2 analysis_flow_order))))
             env_unset
             [ SA2.ViewChange "kotak"; SA2.FileSelect (Some [statement_pdf]);
               SA2.Settle 0 answer_ok; SA2.ViewChange "home" ]);
      reflexivity.
  - apply (proj1 (proj2 (proj2 (proj2 (proj2 analysis_flow_order))))
             env_unset
             [ SA1.Mount; SA1.ChangeView "phonepe-analysis";
               SA1.Drop (Some [statement_pdf]); SA1.ChangeView "home";
               SA1.Settle 0 answer_ok ]).
    reflexivity.
Defined.

(** ** The summary block *)

(** C7 (as worded, refuted).  For a payload whose total spent is -1200
    the first results screen shows 1200. *)
Lemma spent_shown_without_sign : ~ shows_payload_totals1 spent_negative.
Proof.
  intros (_ & _ & H). discriminate H.
Qed.

(** C7 (amended).  The summary block of either results screen is made
    from the payload's [summary] alone, whatever the transaction list,
    the category breakdown and the page count are: nothing is recomputed.
    The two counts are inserted as they are and the balance is handed to
    [toLocaleString('en-IN')] as it is.  Total spent goes through
    [Math.abs] first on both screens, and so does total received on the
    second, where the row puts a fixed [+] or [-] in front: a payload and
    the payload with the opposite sign of these amounts give the same
    block, so their sign is not shown. *)
Theorem summary_block_from_payload :
  (forall s t1 t2 c1 c2 p1 p2,
      Results1.TransactionSummary (Results1.mkAnalysisResult t1 s c1 p1)
      = Results1.TransactionSummary (Results1.mkAnalysisResult t2 s c2 p2))
  /\ (forall s t1 t2 c1 c2 p1 p2,
        Results2.TransactionSummary (Results2.mkAnalysisResult s t1 c1 p1)
        = Results2.TransactionSummary (Results2.mkAnalysisResult s t2 c2 p2))
  /\ (forall r,
        let s := Results1.summary r in
        let b := Results1.TransactionSummary r in
        Results1.balance_line b = [ Lit "₹"; LocaleIN (Results1.balance s) ]
        /\ Results1.credit_line b
           = [ Lit "CR: ₹"; LocaleIN (Results1.totalReceived s);
               Lit " ("; Num (Results1.creditCount s); Lit " trans)" ]
        /\ Results1.debit_line b
           = [ Lit "DR: ₹"; LocaleIN (Z.abs (Results1.totalSpent s));
               Lit " ("; Num (Results1.debitCount s); Lit " trans)" ])
  /\ (forall r,
        let s := Results2.summary r in
        let b := Results2.TransactionSummary r in
        Results2.balance_line b = [ Lit "₹"; LocaleIN (Results2.balance s) ]
        /\ Results2.row_count (Results2.money_in b)
           = [ Num (Results2.creditCount s); Lit " transactions" ]
        /\ Results2.row_amount (Results2.money_in b)
           = [ Lit "+"; Lit " ₹"; LocaleIN (Z.abs (Results2.totalReceived s)) ]
        /\ Results2.row_count (Results2.money_out b)
           = [ Num (Results2.debitCount s); Lit " transactions" ]
        /\ Results2.row_amount (Results2.money_out b)
           = [ Lit "-"; Lit " ₹"; LocaleIN (Z.abs (Results2.totalSpent s)) ])
  /\ (forall t c p received spent balance credits debits total,
        Results1.TransactionSummary
          (Results1.mkAnalysisResult t
             (Results1.mkSummary received (- spent) balance credits debits total) c p)
        = Results1.TransactionSummary
            (Results1.mkAnalysisResult t
               (Results1.mkSummary received spent balance credits debits total) c p))
  /\ (forall t c p received spent balance credits debits hc hd,
        Results2.TransactionSummary
          (Results2.mkAnalysisResult
             (Results2.mkSummary (- received) (- spent) balance credits debits hc hd)
             t c p)
        = Results2.TransactionSummary
            (Results2.mkAnalysisResult
               (Results2.mkSummary received spent balance credits debits hc hd)
               t c p)).
Proof.
  repeat match goal with |- _ /\ _ => split end; try reflexivity.
  - intros r s b. repeat split.
  - intros r s b. repeat split.
  - intros. unfold Results1.TransactionSummary. cbn.
    rewrite Z.abs_opp. reflexivity.
  - intros. unfold Results2.TransactionSummary, Results2.SummaryRow. cbn.
    rewrite !Z.abs_opp. reflexivity.
Qed.

(** * Further properties of the first component *)

Lemma apply_resume1 (o : FetchOutcome) (st : SA1.State) :
  SA1.apply_effects (effects (SA1.analyzeStatement_resume o)) st
  = SA1.mkState (SA1.mounted st) (SA1.currentView st) (SA1.selectedFile st)
                (if succeeds o then "results" else "upload")
                (if succeeds o then payload_of o else SA1.analysisResults st)
                (SA1.in_flight st).
Proof.
  destruct st as [m v sf a r fl].
  destruct o as [t | [s [t | j]]]; try reflexivity.
  unfold SA1.analyzeStatement_resume, SA1.analyzeStatement_try, succeeds, payload_of.
  simpl. destruct (ok _); simpl; [reflexivity|].
  destruct j; reflexivity.
Qed.

Lemma run1_app (env : Env) (st : SA1.State) (es1 es2 : list SA1.Event) :
  SA1.run env st (es1 ++ es2) = SA1.run env (SA1.run env st es1) es2.
Proof. unfold SA1.run. apply fold_left_app. Qed.

Lemma offered_run1_app (env : Env) (es1 es2 : list SA1.Event) :
  forall st,
    SA1.offered_run env st (es1 ++ es2)
    = SA1.offered_run env st es1
      && SA1.offered_run env (SA1.run env st es1) es2.
Proof.
  induction es1 as [|e es1 IH]; intro st; [reflexivity|].
  cbn [app SA1.offered_run]. rewrite IH, andb_assoc. reflexivity.
Qed.

Lemma step1_FileSelect (env : Env) (st : SA1.State) (files : option (list File)) :
  SA1.step env st (SA1.FileSelect files)
  = match first_file files with
    | Some file =>
        if String.eqb (file_type file) "application/pdf"
        then SA1.mkState (SA1.mounted st) (SA1.currentView st) (Some file) "analyzing"
                         (SA1.analysisResults st)
                         (SA1.in_flight st
                            ++ fetches (SA1.analyzeStatement_begin
                                          env (SA1.currentView st) file))%list
        else SA1.mkState (SA1.mounted st) (SA1.currentView st) (SA1.selectedFile st)
                         "upload" (SA1.analysisResults st) (SA1.in_flight st)
    | None => SA1.mkState (SA1.mounted st) (SA1.currentView st) (SA1.selectedFile st)
                          "upload" (SA1.analysisResults st) (SA1.in_flight st)
    end.
Proof.
  unfold SA1.step. cbn [SA1.handle SA1.settled]. unfold SA1.handleFileSelect.
  destruct (first_file files) as [f|]; [|reflexivity].
  destruct (String.eqb _ _); reflexivity.
Qed.

Lemma step1_Drop (env : Env) (st : SA1.State) (files : option (list File)) :
  SA1.step env st (SA1.Drop files) = SA1.step env st (SA1.FileSelect files).
Proof.
  unfold SA1.step. cbn [SA1.handle SA1.settled].
  unfold SA1.handleDrop, SA1.handleFileSelect.
  destruct (first_file files) as [f|]; [|reflexivity].
  destruct (String.eqb _ _); reflexivity.
Qed.

Lemma step1_Settle (env : Env) (st : SA1.State) (n : nat) (o : FetchOutcome) :
  nth_error (SA1.in_flight st) n <> None ->
  SA1.step env st (SA1.Settle n o)
  = SA1.mkState (SA1.mounted st) (SA1.currentView st) (SA1.selectedFile st)
                (if succeeds o then "results" else "upload")
                (if succeeds o then payload_of o else SA1.analysisResults st)
                (remove_nth n (SA1.in_flight st)).
Proof.
  intro Hn. unfold SA1.step. cbn [SA1.handle SA1.settled].
  destruct (nth_error (SA1.in_flight st) n); [|congruence].
  rewrite apply_resume1. reflexivity.
Qed.

Lemma enabled1_Settle (st : SA1.State) (n : nat) (o : FetchOutcome) :
  SA1.enabled st (SA1.Settle n o) = true -> nth_error (SA1.in_flight st) n <> None.
Proof.
  cbn [SA1.enabled]. destruct (nth_error _ _); [discriminate|discriminate].
Qed.

Lemma step1_settled_flow (env : Env) (st : SA1.State) (e : SA1.Event) :
  settled_flow1 st -> SA1.enabled st e = true -> settled_flow1 (SA1.step env st e).
Proof.
  intros (Hone & Hres & Hfile) Hen.
  split; [exact (step1_one_in_flight env st e Hone Hen)|].
  destruct e as [| v | files | | files | n o].
  - destruct st; split; assumption.
  - destruct st; split; assumption.
  - pose proof (upload_offered_upload st Hen) as Hu.
    rewrite step1_FileSelect.
    assert (Hr : SA1.analysisResults st = JNull) by (apply Hres; rewrite Hu; discriminate).
    destruct (first_file files) as [f|];
      [destruct (String.eqb _ _)|]; cbn; split; auto; try discriminate;
      intro H; congruence.
  - destruct st; split; assumption.
  - pose proof (upload_offered_upload st Hen) as Hu.
    rewrite step1_Drop, step1_FileSelect.
    assert (Hr : SA1.analysisResults st = JNull) by (apply Hres; rewrite Hu; discriminate).
    destruct (first_file files) as [f|];
      [destruct (String.eqb _ _)|]; cbn; split; auto; try discriminate;
      intro H; congruence.
  - pose proof (enabled1_Settle st n o Hen) as Hn.
    rewrite (step1_Settle env st n o Hn). cbn.
    assert (Ha : SA1.analysisState st = "analyzing").
    { destruct Hone as [H | [H _]]; [|exact H].
      rewrite H in Hn. destruct n; contradiction Hn; reflexivity. }
    destruct (succeeds o); split; intro H; try congruence.
    + apply Hfile. rewrite Ha. discriminate.
    + apply Hres. rewrite Ha. discriminate.
Qed.

Lemma settled_flow1_init : settled_flow1 SA1.init.
Proof.
  split; [left; reflexivity|]. split; [reflexivity|].
  intro H. contradiction H. reflexivity.
Qed.

Lemma offered_run1_settled_flow (env : Env) (es : list SA1.Event) :
  forall st, settled_flow1 st -> SA1.offered_run env st es = true ->
             settled_flow1 (SA1.run env st es).
Proof.
  induction es as [|e es IH]; intros st Hst Hrun; [exact Hst|].
  cbn [SA1.offered_run] in Hrun. apply andb_true_iff in Hrun.
  destruct Hrun as [Hen Hrun].
  apply IH; [apply step1_settled_flow; assumption | exact Hrun].
Qed.

(** X1.  On every run the page of the first component offers, at most
    one request is in flight, and only while the analysis state is
    ['analyzing']: no second upload can start before the first settles. *)
Theorem first_component_one_request_at_a_time (env : Env) (es : list SA1.Event) :
  SA1.offered_run env SA1.init es = true ->
  (length (SA1.in_flight (SA1.run env SA1.init es)) <= 1)%nat
  /\ (SA1.in_flight (SA1.run env SA1.init es) <> [] ->
      SA1.analysisState (SA1.run env SA1.init es) = "analyzing").
Proof.
  intro Hrun.
  destruct (offered_run1_settled_flow env es SA1.init settled_flow1_init Hrun)
    as ([H | [Ha [r H]]] & _); rewrite H; cbn; split; auto; congruence.
Qed.

Lemma first_component_one_request_at_a_time_witness :
  (length (SA1.in_flight
             (SA1.run env_unset SA1.init
                [ SA1.Mount; SA1.ChangeView "kotak-analysis";
                  SA1.FileSelect (Some [statement_pdf]) ])) <= 1)%nat.
Proof.
  apply (first_component_one_request_at_a_time env_unset
           [ SA1.Mount; SA1.ChangeView "kotak-analysis";
             SA1.FileSelect (Some [statement_pdf]) ]).
  reflexivity.
Defined.

(** X2.  On every run the page of the first component offers, analysis
    results are stored only in the analysis state ['results'], and a file
    is selected whenever the state is ['analyzing'] or ['results']. *)
Theorem first_component_results_and_file (env : Env) (es : list SA1.Event) :
  SA1.offered_run env SA1.init es = true ->
  (SA1.analysisState (SA1.run env SA1.init es) <> "results" ->
   SA1.analysisResults (SA1.run env SA1.init es) = JNull)
  /\ (SA1.analysisState (SA1.run env SA1.init es) <> "upload" ->
      SA1.selectedFile (SA1.run env SA1.init es) <> None).
Proof.
  intro Hrun.
  exact (proj2 (offered_run1_settled_flow env es SA1.init settled_flow1_init Hrun)).
Qed.

Lemma first_component_results_and_file_witness :
  SA1.selectedFile
    (SA1.run env_unset SA1.init
       [ SA1.Mount; SA1.ChangeView "phonepe-analysis";
         SA1.Drop (Some [statement_pdf]); SA1.Settle 0 answer_ok ]) <> None.
Proof.
  apply (first_component_results_and_file env_unset
           [ SA1.Mount; SA1.ChangeView "phonepe-analysis";
             SA1.Drop (Some [statement_pdf]); SA1.Settle 0 answer_ok ]).
  - reflexivity.
  - cbn. discriminate.
Defined.

Lemma step1_results_stay (env : Env) (st : SA1.State) (e : SA1.Event) :
  settled_flow1 st -> SA1.enabled st e = true ->
  SA1.analysisState st = "results" ->
  SA1.analysisState (SA1.step env st e) = "results"
  /\ SA1.analysisResults (SA1.step env st e) = SA1.analysisResults st
  /\ SA1.selectedFile (SA1.step env st e) = SA1.selectedFile st.
Proof.
  intros (Hone & _) Hen Hr.
  destruct e as [| v | files | | files | n o].
  - destruct st; repeat split; assumption.
  - destruct st; repeat split; assumption.
  - pose proof (upload_offered_upload st Hen) as Hu. congruence.
  - destruct st; repeat split; assumption.
  - pose proof (upload_offered_upload st Hen) as Hu. congruence.
  - pose proof (enabled1_Settle st n o Hen) as Hn.
    destruct Hone as [H | [H _]]; [|congruence].
    rewrite H in Hn. destruct n; contradiction Hn; reflexivity.
Qed.

(** X3.  In the first component the state ['results'] is final: once a
    run the page offers has reached it, whatever is offered afterwards
    leaves the analysis state at ['results'] with the same stored results
    and the same selected file, so both analysis views go on showing the
    first statement's results and offer no further upload. *)
Theorem first_component_results_final (env : Env) (es1 es2 : list SA1.Event) :
  SA1.offered_run env SA1.init (es1 ++ es2) = true ->
  SA1.analysisState (SA1.run env SA1.init es1) = "results" ->
  SA1.analysisState (SA1.run env SA1.init (es1 ++ es2)) = "results"
  /\ SA1.analysisResults (SA1.run env SA1.init (es1 ++ es2))
     = SA1.analysisResults (SA1.run env SA1.init es1)
  /\ SA1.selectedFile (SA1.run env SA1.init (es1 ++ es2))
     = SA1.selectedFile (SA1.run env SA1.init es1)
  /\ SA1.upload_offered (SA1.run env SA1.init (es1 ++ es2)) = false.
Proof.
  intros Hrun Hres. rewrite offered_run1_app in Hrun.
  apply andb_true_iff in Hrun. destruct Hrun as [Hrun1 Hrun2].
  pose proof (offered_run1_settled_flow env es1 SA1.init settled_flow1_init Hrun1)
    as Hflow.
  rewrite run1_app.
  revert Hflow Hres Hrun2. generalize (SA1.run env SA1.init es1) as st.
  induction es2 as [|e es2 IH]; intros st Hflow Hres Hrun2.
  - cbn. repeat split; trivial.
    destruct (SA1.upload_offered st) eqn:Hup; [|reflexivity].
    apply upload_offered_upload in Hup. congruence.
  - cbn [SA1.offered_run] in Hrun2. apply andb_true_iff in Hrun2.
    destruct Hrun2 as [Hen Hrun2].
    destruct (step1_results_stay env st e Hflow Hen Hres) as (Ha & Hr & Hf).
    destruct (IH (SA1.step env st e) (step1_settled_flow env st e Hflow Hen) Ha Hrun2)
      as (Ha' & Hr' & Hf' & Hup).
    change (SA1.run env st (e :: es2)) with (SA1.run env (SA1.step env st e) es2).
    rewrite Ha', Hr', Hf', Hr, Hf.
    repeat split; trivial.
Qed.

Lemma first_component_results_final_witness :
  SA1.analysisResults
    (SA1.run env_unset SA1.init
       ([ SA1.Mount; SA1.ChangeView "phonepe-analysis";
          SA1.Drop (Some [statement_pdf]); SA1.Settle 0 answer_ok ]
        ++ [ SA1.ChangeView "home"; SA1.ChangeView "kotak-analysis" ]))
  = SA1.analysisResults
      (SA1.run env_unset SA1.init
         [ SA1.Mount; SA1.ChangeView "phonepe-analysis";
           SA1.Drop (Some [statement_pdf]); SA1.Settle 0 answer_ok ]).
Proof.
  apply (first_component_results_final env_unset
           [ SA1.Mount; SA1.ChangeView "phonepe-analysis";
             SA1.Drop (Some [statement_pdf]); SA1.Settle 0 answer_ok ]
           [ SA1.ChangeView "home"; SA1.ChangeView "kotak-analysis" ]);
    reflexivity.
Defined.

(** X4.  Whenever the page of the first component offers an upload and
    the upload sends a request, the [platform] sent is the one of the
    analysis screen on display: ['phonepe'] on the PhonePe screen,
    ['kotak'] on the Kotak screen.  The fallback branch of
    [analyzeStatement] is never the one that decides. *)
Theorem platform_follows_screen (env : Env) (st : SA1.State) (e : SA1.Event)
        (req : Request) :
  SA1.enabled st e = true ->
  In req (fetches (SA1.handle env st e)) ->
  (SA1.currentView st = "phonepe-analysis"
   /\ SA1.renderCurrentView st = SA1.PhonePeAnalysisView (props_of st)
   /\ exists file,
       req_body req = [ ("file", FormFile file); ("platform", FormString "phonepe") ])
  \/ (SA1.currentView st = "kotak-analysis"
      /\ SA1.renderCurrentView st = SA1.KotakAnalysisView (props_of st)
      /\ exists file,
          req_body req = [ ("file", FormFile file); ("platform", FormString "kotak") ]).
Proof.
  intros Hen Hin.
  assert (Hbegin : forall f,
             In req (fetches (SA1.analyzeStatement_begin env (SA1.currentView st) f)) ->
             SA1.upload_offered st = true ->
             (SA1.currentView st = "phonepe-analysis"
              /\ SA1.renderCurrentView st = SA1.PhonePeAnalysisView (props_of st)
              /\ exists file,
                  req_body req
                  = [ ("file", FormFile file); ("platform", FormString "phonepe") ])
             \/ (SA1.currentView st = "kotak-analysis"
                 /\ SA1.renderCurrentView st = SA1.KotakAnalysisView (props_of st)
                 /\ exists file,
                     req_body req
                     = [ ("file", FormFile file); ("platform", FormString "kotak") ])).
  { intros f [<- | []] Hup.
    unfold SA1.upload_offered, SA1.render in Hup.
    destruct (negb (SA1.mounted st)); [discriminate|].
    unfold SA1.renderCurrentView, props_of in *. cbv zeta in *.
    destruct (String.eqb_spec (SA1.currentView st) "home") as [Hh | Hh];
      [discriminate|].
    destruct (String.eqb_spec (SA1.currentView st) "phonepe-analysis") as [Hp | Hp].
    - left. rewrite Hp. cbn. repeat split. eauto.
    - destruct (String.eqb_spec (SA1.currentView st) "kotak-analysis") as [Hk | Hk].
      + right. rewrite Hk. cbn. repeat split. eauto.
      + exfalso. cbn [orb] in Hup.
        repeat match type of Hup with
               | context [String.eqb ?a ?b] => destruct (String.eqb a b)
               end; discriminate. }
  destruct e as [| v | files | | files | n o]; cbn [SA1.handle SA1.enabled] in *;
    try contradiction.
  - unfold SA1.handleFileSelect in Hin.
    destruct (first_file files) as [f|]; [|contradiction].
    destruct (String.eqb _ _); [|contradiction].
    exact (Hbegin f Hin Hen).
  - unfold SA1.handleDrop in Hin.
    destruct (first_file files) as [f|]; [|contradiction].
    destruct (String.eqb _ _); [|contradiction].
    exact (Hbegin f Hin Hen).
  - destruct (nth_error _ _); [|contradiction].
    rewrite resume1_fetches in Hin. contradiction.
Qed.

Lemma platform_follows_screen_witness :
  exists file,
    req_body (mkRequest "http://localhost:8000/analyze" "POST"
                [ ("file", FormFile statement_pdf); ("platform", FormString "kotak") ])
    = [ ("file", FormFile file); ("platform", FormString "kotak") ].
Proof.
  destruct (platform_follows_screen env_unset
              (SA1.run env_unset SA1.init [ SA1.Mount; SA1.ChangeView "kotak-analysis" ])
              (SA1.Drop (Some [statement_pdf]))
              (mkRequest "http://localhost:8000/analyze" "POST"
                 [ ("file", FormFile statement_pdf); ("platform", FormString "kotak") ]))
    as [(Hv & _) | (_ & _ & H)].
  - reflexivity.
  - cbn. left. reflexivity.
  - discriminate Hv.
  - exact H.
Defined.

Lemma run1_navigated (env : Env) (es : list SA1.Event) :
  forall st,
    In (SA1.currentView st) [ "home"; "phonepe-analysis"; "kotak-analysis" ] ->
    navigated_run env st es = true ->
    In (SA1.currentView (SA1.run env st es))
       [ "home"; "phonepe-analysis"; "kotak-analysis" ].
Proof.
  induction es as [|e es IH]; intros st Hst Hrun; [exact Hst|].
  cbn [navigated_run] in Hrun. apply andb_true_iff in Hrun.
  destruct Hrun as [He Hrun].
  change (SA1.run env st (e :: es)) with (SA1.run env (SA1.step env st e) es).
  apply IH; [|exact Hrun]. clear IH Hrun.
  destruct e as [| v | files | | files | n o].
  - destruct st; exact Hst.
  - unfold SA1.step. cbn [SA1.handle SA1.settled SA1.apply_effects fold_left
                          SA1.apply_effect SA1.currentView].
    unfold SA1.renderCurrentView in He. cbv zeta in He.
    destruct Hst as [Hv | [Hv | [Hv | []]]]; rewrite <- Hv in He; cbn in He;
      repeat match type of He with
             | context [String.eqb ?a ?b] => destruct (String.eqb_spec a b)
             end; try discriminate; subst v; cbn; auto.
  - rewrite step1_FileSelect.
    destruct (first_file files) as [f|]; [destruct (String.eqb _ _)|]; exact Hst.
  - destruct st; exact Hst.
  - rewrite step1_Drop, step1_FileSelect.
    destruct (first_file files) as [f|]; [destruct (String.eqb _ _)|]; exact Hst.
  - unfold SA1.step. cbn [SA1.handle SA1.settled].
    destruct (nth_error _ _).
    + rewrite apply_resume1. exact Hst.
    + exact Hst.
Qed.

(** X5.  Through its own screens the first component only ever shows
    three views.  When every view change of a run is one that the screen
    on display can make, the current view stays among ['home'],
    ['phonepe-analysis'] and ['kotak-analysis'], so what
    [renderCurrentView] returns is the home screen or an analysis screen:
    the settings, account, lists and refer screens are never reached. *)
Theorem first_component_reachable_views (env : Env) (es : list SA1.Event) :
  navigated_run env SA1.init es = true ->
  In (SA1.currentView (SA1.run env SA1.init es))
     [ "home"; "phonepe-analysis"; "kotak-analysis" ]
  /\ (SA1.renderCurrentView (SA1.run env SA1.init es) = SA1.HomeView
      \/ is_PhonePe (SA1.renderCurrentView (SA1.run env SA1.init es)) = true
      \/ is_Kotak (SA1.renderCurrentView (SA1.run env SA1.init es)) = true).
Proof.
  intro Hrun.
  assert (Hv := run1_navigated env es SA1.init (or_introl eq_refl) Hrun).
  split; [exact Hv|].
  unfold SA1.renderCurrentView. cbv zeta.
  destruct Hv as [Hv | [Hv | [Hv | []]]]; rewrite <- Hv; cbn; auto.
Qed.

Lemma first_component_reachable_views_witness :
  In (SA1.currentView
        (SA1.run env_unset SA1.init
           [ SA1.Mount; SA1.ChangeView "kotak-analysis"; SA1.ChangeView "home";
             SA1.ChangeView "phonepe-analysis" ]))
     [ "home"; "phonepe-analysis"; "kotak-analysis" ].
Proof.
  apply (first_component_reachable_views env_unset
           [ SA1.Mount; SA1.ChangeView "kotak-analysis"; SA1.ChangeView "home";
             SA1.ChangeView "phonepe-analysis" ]).
  reflexivity.
Defined.

(** * Further properties of the second component *)

Arguments str_or : simpl never.

Lemma str_or_nonempty (x : option string) (y : string) :
  y <> "" -> str_or x y <> "".
Proof.
  intro Hy. unfold str_or. destruct x as [s|]; [|exact Hy].
  destruct (String.eqb_spec s ""); assumption.
Qed.

Lemma apply_resume2 (o : FetchOutcome) (st : SA2.State) :
  exists m,
    m <> ""
    /\ SA2.apply_effects (effects (SA2.analyzeStatement_resume o)) st
       = SA2.mkState (SA2.currentView st) (SA2.selectedFile st)
                     (if succeeds o then "results" else "upload")
                     (if succeeds o then payload_of o else SA2.analysisResults st)
                     (if succeeds o then SA2.errorMessage st else Some m)
                     (SA2.fileInputRef_current st) (SA2.in_flight st).
Proof.
  destruct st as [v sf a r em ref fl].
  destruct o as [t | [s [t | j]]].
  - eexists. split; [|reflexivity]. apply str_or_nonempty. discriminate.
  - eexists. split; [|reflexivity]. apply str_or_nonempty. discriminate.
  - unfold SA2.analyzeStatement_resume, SA2.analyzeStatement_try, succeeds, payload_of.
    simpl. destruct (ok _); simpl.
    + exists "x". split; [discriminate|reflexivity].
    + destruct j; (eexists; split; [|reflexivity]; apply str_or_nonempty; discriminate).
Qed.

(** X6.  When an analysis of the second component fails - the request is
    rejected, the body does not parse, or the status is outside 200-299 -
    the stored error message is never empty, the analysis state is
    ['upload'], and so the upload panel of the Kotak view shows the error
    box with its Dismiss button. *)
Theorem failure_message_shown (o : FetchOutcome) (st : SA2.State) :
  succeeds o = false ->
  let after := SA2.apply_effects (effects (SA2.analyzeStatement_resume o)) st in
  (exists m, SA2.errorMessage after = Some m /\ m <> "")
  /\ SA2.analysisState after = "upload"
  /\ SA2.KotakAnalysisView_renderContent (props_of2 after) = UploadPanel
  /\ SA2.error_box (props_of2 after) = true
  /\ (SA2.currentView st = "kotak" -> SA2.enabled after SA2.DismissError = true).
Proof.
  intros Ho after. subst after.
  destruct (apply_resume2 o st) as (m & Hm & ->). rewrite Ho.
  assert (Hbox : negb (String.eqb m "") = true).
  { destruct (String.eqb_spec m ""); [contradiction|reflexivity]. }
  split; [exists m; split; [reflexivity|exact Hm]|].
  split; [reflexivity|]. split; [reflexivity|].
  split; [exact Hbox|].
  intro Hv. unfold SA2.enabled, SA2.renderContent. cbn. rewrite Hv. cbn. exact Hbox.
Qed.

Lemma failure_message_shown_witness :
  SA2.error_box
    (props_of2
       (SA2.apply_effects
          (effects (SA2.analyzeStatement_resume
                      (Resolved (mkResponse 500 (inr (JObj [("detail", JArr [])]))))))
          SA2.init)) = true.
Proof.
  apply (failure_message_shown
           (Resolved (mkResponse 500 (inr (JObj [("detail", JArr [])]))))
           SA2.init).
  reflexivity.
Defined.

Lemma step2_ViewChange (env : Env) (st : SA2.State) (v : string) :
  SA2.step env st (SA2.ViewChange v)
  = SA2.mkState v None "upload" JNull None
                (match SA2.fileInputRef_current st with
                 | Some _ => Some ""
                 | None => None
                 end)
                (SA2.in_flight st).
Proof.
  unfold SA2.step. cbn [SA2.handle SA2.settled]. unfold SA2.handleViewChange.
  rewrite apply_effects_app2, apply_resetState. reflexivity.
Qed.

Lemma step2_FileSelect (env : Env) (st : SA2.State) (files : option (list File)) :
  SA2.step env st (SA2.FileSelect files)
  = if accepted2 st (SA2.FileSelect files)
    then SA2.mkState (SA2.currentView st) (first_file files) "analyzing"
                     (SA2.analysisResults st) None (SA2.fileInputRef_current st)
                     (SA2.in_flight st ++ fetches (SA2.handle env st (SA2.FileSelect files)))%list
    else st.
Proof.
  unfold SA2.step. cbn [SA2.handle SA2.settled accepted2]. unfold SA2.handleFileSelect.
  destruct (first_file files) as [f|]; [|reflexivity].
  destruct (_ || _); reflexivity.
Qed.

Lemma step2_Drop (env : Env) (st : SA2.State) (files : option (list File)) :
  SA2.step env st (SA2.Drop files) = SA2.step env st (SA2.FileSelect files).
Proof.
  unfold SA2.step. cbn [SA2.handle SA2.settled].
  unfold SA2.handleDrop, SA2.handleFileSelect.
  destruct (first_file files) as [f|]; [|reflexivity].
  destruct (_ || _); reflexivity.
Qed.

Lemma enabled2_Settle (st : SA2.State) (n : nat) (o : FetchOutcome) :
  SA2.enabled st (SA2.Settle n o) = true -> nth_error (SA2.in_flight st) n <> None.
Proof.
  cbn [SA2.enabled].
  destruct (SA2.renderContent st), (nth_error (SA2.in_flight st) n); discriminate.
Qed.

Lemma enabled2_kotak (st : SA2.State) (e : SA2.Event) :
  SA2.enabled st e = true ->
  match e with
  | SA2.FileSelect _ | SA2.DragOver | SA2.Drop _ | SA2.DismissError =>
      SA2.currentView st = "kotak"
  | _ => True
  end.
Proof.
  unfold SA2.enabled, SA2.renderContent. cbv zeta.
  destruct e; trivial;
    (destruct (String.eqb_spec (SA2.currentView st) "home"); [discriminate|]);
    (destruct (String.eqb_spec (SA2.currentView st) "kotak"); [trivial|]);
    (destruct (String.eqb_spec (SA2.currentView st) "phonepe"); discriminate).
Qed.

(** X7.  Every request the page of the second component lets the user
    send carries [bank] = ['kotak']: uploads are offered on the Kotak view
    only, so ['phonepe'] is never sent. *)
Theorem bank_is_always_kotak (env : Env) (st : SA2.State) (e : SA2.Event)
        (req : Request) :
  SA2.enabled st e = true ->
  In req (fetches (SA2.handle env st e)) ->
  exists file, req_body req = [ ("file", FormFile file); ("bank", FormString "kotak") ].
Proof.
  intros Hen Hin. pose proof (enabled2_kotak st e Hen) as Hv.
  destruct e as [v | files | | files | | n o]; cbn [SA2.handle] in Hin.
  - unfold SA2.handleViewChange, SA2.resetState in Hin. rewrite fetches_app in Hin.
    destruct (SA2.fileInputRef_current st); contradiction.
  - unfold SA2.handleFileSelect in Hin. rewrite Hv in Hin.
    destruct (first_file files) as [f|]; [|contradiction].
    destruct Hin as [<- | []]. exists f. reflexivity.
  - contradiction.
  - unfold SA2.handleDrop in Hin. rewrite Hv in Hin.
    destruct (first_file files) as [f|]; [|contradiction].
    destruct Hin as [<- | []]. exists f. reflexivity.
  - contradiction.
  - destruct (nth_error _ _); [|contradiction].
    rewrite resume2_fetches in Hin. contradiction.
Qed.

Lemma bank_is_always_kotak_witness :
  exists file,
    req_body (mkRequest "https://demo-bl6p.onrender.com/analyze" "POST"
                [ ("file", FormFile statement_pdf); ("bank", FormString "kotak") ])
    = [ ("file", FormFile file); ("bank", FormString "kotak") ].
Proof.
  apply (bank_is_always_kotak env_unset
           (SA2.run env_unset SA2.init [ SA2.ViewChange "kotak" ])
           (SA2.FileSelect (Some [statement_pdf]))).
  - reflexivity.
  - cbn. left. reflexivity.
Defined.

Lemma step2_view (env : Env) (st : SA2.State) (e : SA2.Event) :
  SA2.currentView (SA2.step env st e)
  = match e with SA2.ViewChange v => v | _ => SA2.currentView st end.
Proof.
  destruct e as [v | files | | files | | n o].
  - rewrite step2_ViewChange. reflexivity.
  - rewrite step2_FileSelect. destruct (accepted2 _ _); reflexivity.
  - destruct st; reflexivity.
  - rewrite step2_Drop, step2_FileSelect. destruct (accepted2 _ _); reflexivity.
  - destruct st; reflexivity.
  - unfold SA2.step. cbn [SA2.handle SA2.settled].
    destruct (nth_error _ _); [|reflexivity].
    destruct (apply_resume2 o
                (SA2.mkState (SA2.currentView st) (SA2.selectedFile st)
                   (SA2.analysisState st) (SA2.analysisResults st)
                   (SA2.errorMessage st) (SA2.fileInputRef_current st)
                   (remove_nth n (SA2.in_flight st)))) as (m & _ & ->).
    reflexivity.
Qed.

(** X8.  On every run the page of the second component offers, the
    current view is ['home'] or ['kotak']: the PhonePe card is disabled,
    so the PhonePe placeholder is never on display. *)
Theorem second_component_reachable_views (env : Env) (es : list SA2.Event) :
  SA2.offered_run env SA2.init es = true ->
  (SA2.currentView (SA2.run env SA2.init es) = "home"
   \/ SA2.currentView (SA2.run env SA2.init es) = "kotak")
  /\ SA2.renderContent (SA2.run env SA2.init es) <> SA2.PhonePeComingSoon.
Proof.
  intro Hrun.
  assert (Hv : SA2.currentView (SA2.run env SA2.init es) = "home"
               \/ SA2.currentView (SA2.run env SA2.init es) = "kotak").
  { revert Hrun.
    assert (H0 : SA2.currentView SA2.init = "home" \/ SA2.currentView SA2.init = "kotak")
      by (left; reflexivity).
    revert H0. generalize SA2.init as st.
    induction es as [|e es IH]; intros st Hst Hrun; [exact Hst|].
    cbn [SA2.offered_run] in Hrun. apply andb_true_iff in Hrun.
    destruct Hrun as [Hen Hrun].
    change (SA2.run env st (e :: es)) with (SA2.run env (SA2.step env st e) es).
    apply IH; [|exact Hrun]. rewrite step2_view.
    destruct e as [v | | | | |]; try exact Hst.
    unfold SA2.enabled, SA2.renderContent in Hen. cbv zeta in Hen.
    destruct Hst as [Hst | Hst]; rewrite Hst in Hen; cbn in Hen;
      apply String.eqb_eq in Hen; auto. }
  split; [exact Hv|].
  unfold SA2.renderContent. cbv zeta.
  destruct Hv as [-> | ->]; discriminate.
Qed.

Lemma second_component_reachable_views_witness :
  SA2.renderContent
    (SA2.run env_unset SA2.init
       [ SA2.ViewChange "kotak"; SA2.ViewChange "home"; SA2.ViewChange "kotak" ])
  <> SA2.PhonePeComingSoon.
Proof.
  apply (second_component_reachable_views env_unset
           [ SA2.ViewChange "kotak"; SA2.ViewChange "home"; SA2.ViewChange "kotak" ]).
  reflexivity.
Defined.

Lemma step2_Settle (env : Env) (st : SA2.State) (n : nat) (o : FetchOutcome) :
  nth_error (SA2.in_flight st) n <> None ->
  exists m,
    m <> ""
    /\ SA2.step env st (SA2.Settle n o)
       = SA2.mkState (SA2.currentView st) (SA2.selectedFile st)
                     (if succeeds o then "results" else "upload")
                     (if succeeds o then payload_of o else SA2.analysisResults st)
                     (if succeeds o then SA2.errorMessage st else Some m)
                     (SA2.fileInputRef_current st)
                     (remove_nth n (SA2.in_flight st)).
Proof.
  intro Hn. unfold SA2.step. cbn [SA2.handle SA2.settled].
  destruct (nth_error (SA2.in_flight st) n); [|congruence].
  destruct (apply_resume2 o
              (SA2.mkState (SA2.currentView st) (SA2.selectedFile st)
                 (SA2.analysisState st) (SA2.analysisResults st)
                 (SA2.errorMessage st) (SA2.fileInputRef_current st)
                 (remove_nth n (SA2.in_flight st)))) as (m & Hm & ->).
  exists m. split; [exact Hm|reflexivity].
Qed.

Lemma step2_settled_flow (env : Env) (st : SA2.State) (e : SA2.Event) :
  settled_flow2 st -> SA2.enabled st e = true ->
  match e with SA2.ViewChange _ => SA2.in_flight st = [] | _ => True end ->
  settled_flow2 (SA2.step env st e).
Proof.
  intros (Hone & Hmsg & Herr & Hres & Hfile) Hen Hquiet.
  split; [exact (step2_one_in_flight env st e Hone Hen Hquiet)|].
  pose proof (enabled2_upload st e Hen) as Hu.
  destruct e as [v | files | | files | | n o].
  - clear Hen. rewrite step2_ViewChange.
    cbn [SA2.in_flight SA2.errorMessage SA2.analysisState SA2.analysisResults
         SA2.selectedFile].
    repeat split; intros; close_flow.
  - clear Hen. rewrite step2_FileSelect.
    destruct (accepted2 st (SA2.FileSelect files)) eqn:Hacc;
      [|repeat split; assumption].
    assert (Hr : SA2.analysisResults st = JNull).
    { apply Hres. rewrite Hu. discriminate. }
    assert (Hf : first_file files <> None).
    { cbn [accepted2] in Hacc. destruct (first_file files); discriminate. }
    cbn [SA2.in_flight SA2.errorMessage SA2.analysisState SA2.analysisResults
         SA2.selectedFile].
    repeat split; intros; close_flow.
  - destruct st; repeat split; assumption.
  - clear Hen. rewrite step2_Drop, step2_FileSelect.
    destruct (accepted2 st (SA2.FileSelect files)) eqn:Hacc;
      [|repeat split; assumption].
    assert (Hr : SA2.analysisResults st = JNull).
    { apply Hres. rewrite Hu. discriminate. }
    assert (Hf : first_file files <> None).
    { cbn [accepted2] in Hacc. destruct (first_file files); discriminate. }
    cbn [SA2.in_flight SA2.errorMessage SA2.analysisState SA2.analysisResults
         SA2.selectedFile].
    repeat split; intros; close_flow.
  - clear Hen. destruct st as [v sf a r em ref fl].
    unfold SA2.step.
    cbn [SA2.handle SA2.settled SA2.apply_effects fold_left SA2.apply_effect
         SA2.in_flight SA2.errorMessage SA2.analysisState SA2.analysisResults
         SA2.selectedFile SA2.currentView SA2.fileInputRef_current] in *.
    repeat split; intros; close_flow; auto.
  - pose proof (enabled2_Settle st n o Hen) as Hn. clear Hen.
    destruct (step2_Settle env st n o Hn) as (m & Hm & ->).
    cbn [SA2.in_flight SA2.errorMessage SA2.analysisState SA2.analysisResults
         SA2.selectedFile].
    assert (Hfl : SA2.in_flight st <> []).
    { intro H. rewrite H in Hn. destruct n; apply Hn; reflexivity. }
    assert (Ha : SA2.analysisState st = "analyzing").
    { destruct Hone as [H | [H _]]; [contradiction|exact H]. }
    pose proof (Hmsg Hfl) as Hnone.
    assert (Hsf : SA2.selectedFile st <> None).
    { apply Hfile. rewrite Ha. discriminate. }
    assert (Hr : SA2.analysisResults st = JNull).
    { apply Hres. rewrite Ha. discriminate. }
    assert (Hrem : remove_nth n (SA2.in_flight st) = []).
    { destruct Hone as [H' | [_ [q H']]]; [contradiction|].
      rewrite H' in *. destruct n as [|[|n]]; [reflexivity| |];
        exfalso; apply Hn; reflexivity. }
    rewrite Hrem.
    destruct (succeeds o); repeat split; intros; close_flow.
Qed.

Lemma settled_flow2_init : settled_flow2 SA2.init.
Proof.
  split; [left; reflexivity|].
  repeat split; intro H; try reflexivity; contradiction H; reflexivity.
Qed.

Lemma quiet_run2_settled_flow (env : Env) (es : list SA2.Event) :
  forall st, settled_flow2 st ->
             SA2.offered_run env st es = true ->
             quiet_run env st es = true ->
             settled_flow2 (SA2.run env st es).
Proof.
  induction es as [|e es IH]; intros st Hst Hrun Hquiet; [exact Hst|].
  cbn [SA2.offered_run] in Hrun. apply andb_true_iff in Hrun.
  destruct Hrun as [Hen Hrun].
  assert (Hq : match e with SA2.ViewChange _ => SA2.in_flight st = [] | _ => True end
               /\ quiet_run env (SA2.step env st e) es = true).
  { cbn [quiet_run] in Hquiet.
    destruct e; destruct (SA2.in_flight st); try discriminate; auto. }
  destruct Hq as [Hq Hquiet'].
  change (SA2.run env st (e :: es)) with (SA2.run env (SA2.step env st e) es).
  apply IH; [apply step2_settled_flow; assumption | exact Hrun | exact Hquiet'].
Qed.

(** X9.  On the runs the page of the second component offers in which
    no view change happens while a request is in flight: at most one
    request is in flight; an error message is stored only in the analysis
    state ['upload'], never beside results or during an analysis;
    analysis results are stored only in the state ['results']; and a file
    is selected whenever the state is ['analyzing'] or ['results']. *)
Theorem second_component_settled_flow (env : Env) (es : list SA2.Event) :
  SA2.offered_run env SA2.init es = true ->
  quiet_run env SA2.init es = true ->
  (length (SA2.in_flight (SA2.run env SA2.init es)) <= 1)%nat
  /\ (SA2.errorMessage (SA2.run env SA2.init es) <> None ->
      SA2.analysisState (SA2.run env SA2.init es) = "upload")
  /\ (SA2.analysisState (SA2.run env SA2.init es) <> "results" ->
      SA2.analysisResults (SA2.run env SA2.init es) = JNull)
  /\ (SA2.analysisState (SA2.run env SA2.init es) <> "upload" ->
      SA2.selectedFile (SA2.run env SA2.init es) <> None).
Proof.
  intros Hrun Hquiet.
  destruct (quiet_run2_settled_flow env es SA2.init settled_flow2_init Hrun Hquiet)
    as (Hone & _ & Herr & Hres & Hfile).
  repeat split; trivial.
  destruct Hone as [H | [_ [r H]]]; rewrite H; cbn; auto.
Qed.

Lemma second_component_settled_flow_witness :
  SA2.analysisState
    (SA2.run env_unset SA2.init
       [ SA2.ViewChange "kotak"; SA2.FileSelect (Some [statement_pdf]);
         SA2.Settle 0 (Rejected (ThrownError "Failed to fetch")) ]) = "upload".
Proof.
  apply (second_component_settled_flow env_unset
           [ SA2.ViewChange "kotak"; SA2.FileSelect (Some [statement_pdf]);
             SA2.Settle 0 (Rejected (ThrownError "Failed to fetch")) ]).
  - reflexivity.
  - reflexivity.
  - cbn. discriminate.
Defined.

Lemma revisit_run_before_answer (env : Env) (f : File) :
  SA2.run env SA2.init
    [ SA2.ViewChange "kotak"; SA2.FileSelect (Some [f]);
      SA2.ViewChange "home"; SA2.ViewChange "kotak" ]
  = SA2.mkState "kotak" None "upload" JNull None None
      [ mkRequest (SA2.apiEndpoint env ++ "/analyze") "POST"
          [ ("file", FormFile f); ("bank", FormString "kotak") ] ].
Proof.
  unfold SA2.run. cbn [fold_left].
  rewrite (step2_ViewChange env SA2.init "kotak").
  cbn [SA2.init SA2.fileInputRef_current SA2.in_flight].
  rewrite step2_FileSelect.
  cbn [accepted2 first_file SA2.currentView String.eqb Ascii.eqb Bool.eqb orb
       SA2.analysisResults SA2.fileInputRef_current SA2.in_flight SA2.handle
       SA2.handleFileSelect SA2.analyzeStatement_begin fetches app].
  rewrite !step2_ViewChange. reflexivity.
Qed.

Lemma revisit_run_offered (env : Env) (f : File) (o : FetchOutcome) :
  SA2.offered_run env SA2.init (revisit_run f o) = true.
Proof.
  unfold revisit_run. cbn [SA2.offered_run].
  rewrite (step2_ViewChange env SA2.init "kotak").
  cbn [SA2.init SA2.fileInputRef_current SA2.in_flight].
  rewrite step2_FileSelect.
  cbn [accepted2 first_file SA2.currentView String.eqb Ascii.eqb Bool.eqb orb
       SA2.analysisResults SA2.fileInputRef_current SA2.in_flight SA2.handle
       SA2.handleFileSelect SA2.analyzeStatement_begin fetches app].
  rewrite !step2_ViewChange. reflexivity.
Qed.

(** X10.  A late answer surfaces in a later visit.  For any file and
    any answer that succeeds, the page of the second component offers the
    run: open the Kotak view, choose the file, go back, open the Kotak
    view again, and then the answer of the first visit arrives.  At its
    end the Kotak view is on display in the state ['results'] with that
    answer's body stored, although no file is selected in this visit. *)
Theorem late_answer_surfaces (env : Env) (f : File) (o : FetchOutcome) :
  succeeds o = true ->
  SA2.offered_run env SA2.init (revisit_run f o) = true
  /\ SA2.currentView (SA2.run env SA2.init (revisit_run f o)) = "kotak"
  /\ SA2.selectedFile (SA2.run env SA2.init (revisit_run f o)) = None
  /\ SA2.analysisState (SA2.run env SA2.init (revisit_run f o)) = "results"
  /\ SA2.analysisResults (SA2.run env SA2.init (revisit_run f o)) = payload_of o
  /\ SA2.in_flight (SA2.run env SA2.init (revisit_run f o)) = [].
Proof.
  intro Ho. split; [apply revisit_run_offered|].
  assert (E : SA2.run env SA2.init (revisit_run f o)
              = SA2.step env
                  (SA2.run env SA2.init
                     [ SA2.ViewChange "kotak"; SA2.FileSelect (Some [f]);
                       SA2.ViewChange "home"; SA2.ViewChange "kotak" ])
                  (SA2.Settle 0 o)).
  { unfold revisit_run, SA2.run.
    change [ SA2.ViewChange "kotak"; SA2.FileSelect (Some [f]);
             SA2.ViewChange "home"; SA2.ViewChange "kotak"; SA2.Settle 0 o ]
      with ([ SA2.ViewChange "kotak"; SA2.FileSelect (Some [f]);
             SA2.ViewChange "home"; SA2.ViewChange "kotak"] ++ [SA2.Settle 0 o ])%list.
    rewrite fold_left_app. reflexivity. }
  rewrite E, revisit_run_before_answer.
  match goal with
  | |- context [SA2.step env ?st (SA2.Settle 0 o)] =>
      destruct (step2_Settle env st 0 o) as (m & _ & ->)
  end.
  - cbn [SA2.in_flight nth_error]. discriminate.
  - rewrite Ho. cbn [SA2.currentView SA2.selectedFile SA2.analysisState SA2.analysisResults SA2.in_flight remove_nth]. repeat split.
Qed.

Lemma late_answer_surfaces_witness :
  SA2.analysisResults (SA2.run env_unset SA2.init (revisit_run statement_pdf answer_ok))
  = sample_result
  /\ SA2.selectedFile (SA2.run env_unset SA2.init (revisit_run statement_pdf answer_ok))
     = None.
Proof.
  destruct (late_answer_surfaces env_unset statement_pdf answer_ok)
    as (_ & _ & Hfile & _ & Hres & _).
  - reflexivity.
  - split; [exact Hres|exact Hfile].
Defined.


(** * The backend URL *)




(** * The case [renderContent] takes *)

Lemma run1_three_states (env : Env) (es : list SA1.Event) :
  forall st, AnalysisState_ok (SA1.analysisState st) ->
             AnalysisState_ok (SA1.analysisState (SA1.run env st es)).
Proof.
  induction es as [|e es IH]; intros st Hst; [exact Hst|].
  apply IH. apply step1_keeps_three_states. exact Hst.
Qed.

Lemma run2_three_states (env : Env) (es : list SA2.Event) :
  forall st, AnalysisState_ok (SA2.analysisState st) ->
             AnalysisState_ok (SA2.analysisState (SA2.run env st es)).
Proof.
  induction es as [|e es IH]; intros st Hst; [exact Hst|].
  apply IH. apply step2_keeps_three_states. exact Hst.
Qed.

(** X12.  Whatever events happen and in whatever order, the
    [renderContent] of the analysis views of both components never takes
    its [default] case: it returns the upload panel exactly in the state
    ['upload'], the spinner exactly in ['analyzing'], and in ['results']
    either the [ResultsView] element for the stored results or, when these
    are falsy, the text that they are not available.  (What [ResultsView]
    then does with the stored results is not part of [renderContent].) *)
Theorem renderContent_default_unreachable (env : Env) :
  (forall es,
      let st := SA1.run env SA1.init es in
      SA1.renderContent (props_of st) <> NoPanel
      /\ (SA1.renderContent (props_of st) = UploadPanel
          <-> SA1.analysisState st = "upload")
      /\ (SA1.renderContent (props_of st) = AnalyzingPanel
          <-> SA1.analysisState st = "analyzing")
      /\ (SA1.renderContent (props_of st) = ResultsUnavailable
          <-> SA1.analysisState st = "results"
              /\ truthy (Some (SA1.analysisResults st)) = false)
      /\ (SA1.renderContent (props_of st) = ResultsPanel (SA1.analysisResults st)
          <-> SA1.analysisState st = "results"
              /\ truthy (Some (SA1.analysisResults st)) = true))
  /\ (forall es,
        let st := SA2.run env SA2.init es in
        SA2.KotakAnalysisView_renderContent (props_of2 st) <> NoPanel
        /\ (SA2.KotakAnalysisView_renderContent (props_of2 st) = UploadPanel
            <-> SA2.analysisState st = "upload")
        /\ (SA2.KotakAnalysisView_renderContent (props_of2 st) = AnalyzingPanel
            <-> SA2.analysisState st = "analyzing")
        /\ (SA2.KotakAnalysisView_renderContent (props_of2 st) = ResultsUnavailable
            <-> SA2.analysisState st = "results"
                /\ truthy (Some (SA2.analysisResults st)) = false)
        /\ (SA2.KotakAnalysisView_renderContent (props_of2 st)
            = ResultsPanel (SA2.analysisResults st)
            <-> SA2.analysisState st = "results"
                /\ truthy (Some (SA2.analysisResults st)) = true)).
Proof.
  split.
  - intros es st.
    assert (Hok : AnalysisState_ok (SA1.analysisState st)).
    { apply run1_three_states. left. reflexivity. }
    unfold SA1.renderContent, props_of. cbn [SA1.p_analysisState SA1.p_analysisResults].
    generalize dependent (SA1.analysisResults st).
    generalize dependent (SA1.analysisState st).
    intros a [-> | [-> | ->]] r; cbn [String.eqb Ascii.eqb Bool.eqb];
      destruct (truthy (Some r)); cbn [negb];
      repeat split; intros; try discriminate; try reflexivity;
      match goal with
      | H : _ /\ _ |- _ => destruct H; discriminate
      end.
  - intros es st.
    assert (Hok : AnalysisState_ok (SA2.analysisState st)).
    { apply run2_three_states. left. reflexivity. }
    unfold SA2.KotakAnalysisView_renderContent, props_of2.
    cbn [SA2.p_analysisState SA2.p_analysisResults].
    generalize dependent (SA2.analysisResults st).
    generalize dependent (SA2.analysisState st).
    intros a [-> | [-> | ->]] r; cbn [String.eqb Ascii.eqb Bool.eqb];
      destruct (truthy (Some r)); cbn [negb];
      repeat split; intros; try discriminate; try reflexivity;
      match goal with
      | H : _ /\ _ |- _ => destruct H; discriminate
      end.
Qed.

(** * How failures are told *)

(** X13.  The first component tells every failure with exactly one
    [alert]: a rejected upload with the text of its handler, an analysis
    that fails with a text that starts with Analysis failed; any other
    event alerts nothing.  The second component never alerts: what its
    handlers turn away is dropped without a word and without a state
    change. *)
Theorem failures_are_alerted (env : Env) :
  (forall st files,
      accepted1 (SA1.FileSelect files) = false ->
      alerts (SA1.handle env st (SA1.FileSelect files))
      = [ "Please select a valid PDF file" ]
      /\ alerts (SA1.handle env st (SA1.Drop files))
         = [ "Please drop a valid PDF file" ])
  /\ (forall st n o,
        nth_error (SA1.in_flight st) n <> None -> succeeds o = false ->
        exists m, alerts (SA1.handle env st (SA1.Settle n o))
                  = [ "Analysis failed: " ++ m ])
  /\ (forall st e,
        alerts (SA1.handle env st e) <> [] ->
        (exists files, (e = SA1.FileSelect files \/ e = SA1.Drop files)
                       /\ accepted1 e = false)
        \/ (exists n o, e = SA1.Settle n o /\ succeeds o = false
                        /\ nth_error (SA1.in_flight st) n <> None))
  /\ (forall st e, alerts (SA2.handle env st e) = [])
  /\ (forall st files,
        accepted2 st (SA2.FileSelect files) = false ->
        SA2.step env st (SA2.FileSelect files) = st
        /\ SA2.step env st (SA2.Drop files) = st).
Proof.
  assert (Hres1 : forall o,
             alerts (effects (SA1.analyzeStatement_resume o))
             = if succeeds o then []
               else [ "Analysis failed: " ++
                      match snd (SA1.analyzeStatement_try o) with
                      | inl (ThrownError message) => message
                      | _ => "Unknown error"
                      end ]).
  { intros [t | [s [t | j]]]; try (destruct t; reflexivity).
    unfold SA1.analyzeStatement_resume, SA1.analyzeStatement_try, succeeds.
    simpl. destruct (ok _); simpl; [reflexivity|].
    destruct j; reflexivity. }
  assert (Hres2 : forall o, alerts (effects (SA2.analyzeStatement_resume o)) = []).
  { intros [t | [s [t | j]]]; try reflexivity.
    unfold SA2.analyzeStatement_resume, SA2.analyzeStatement_try.
    simpl. destruct (ok _); simpl; [reflexivity|].
    destruct j; reflexivity. }
  repeat match goal with |- _ /\ _ => split end.
  - intros st files Hacc. cbn [SA1.handle accepted1] in *.
    unfold SA1.handleFileSelect, SA1.handleDrop.
    destruct (first_file files) as [f|]; [|split; reflexivity].
    rewrite Hacc. split; reflexivity.
  - intros st n o Hn Ho. cbn [SA1.handle].
    destruct (nth_error (SA1.in_flight st) n); [|congruence].
    rewrite Hres1, Ho. eexists. reflexivity.
  - intros st e Hal.
    destruct e as [| v | files | | files | n o]; cbn [SA1.handle] in Hal;
      try (contradiction Hal; reflexivity).
    + left. exists files. split; [left; reflexivity|].
      cbn [accepted1]. unfold SA1.handleFileSelect in Hal.
      destruct (first_file files) as [f|]; [|reflexivity].
      destruct (String.eqb _ _); [contradiction Hal; reflexivity|reflexivity].
    + left. exists files. split; [right; reflexivity|].
      cbn [accepted1]. unfold SA1.handleDrop in Hal.
      destruct (first_file files) as [f|]; [|reflexivity].
      destruct (String.eqb _ _); [contradiction Hal; reflexivity|reflexivity].
    + right. exists n, o.
      destruct (nth_error (SA1.in_flight st) n) eqn:Hn;
        [|contradiction Hal; reflexivity].
      rewrite Hres1 in Hal.
      destruct (succeeds o); [contradiction Hal; reflexivity|].
      repeat split. discriminate.
  - intros st e.
    destruct e as [v | files | | files | | n o]; cbn [SA2.handle]; try reflexivity.
    + unfold SA2.handleViewChange, SA2.resetState.
      destruct (SA2.fileInputRef_current st); reflexivity.
    + unfold SA2.handleFileSelect.
      destruct (first_file files); [destruct (_ || _)|]; reflexivity.
    + unfold SA2.handleDrop.
      destruct (first_file files); [destruct (_ || _)|]; reflexivity.
    + destruct (nth_error _ _); [apply Hres2|reflexivity].
  - intros st files Hacc.
    rewrite step2_Drop, step2_FileSelect, Hacc. split; reflexivity.
Qed.

Lemma failures_are_alerted_witness :
  alerts (SA1.handle env_unset SA1.init (SA1.Drop (Some [mkFile "notes.txt" "text/plain"])))
  = [ "Please drop a valid PDF file" ].
Proof.
  apply (proj1 (failures_are_alerted env_unset) SA1.init
               (Some [mkFile "notes.txt" "text/plain"])).
  reflexivity.
Defined.

(** * The results screens *)

(** X14.  The first results screen lists at most five recent
    transactions: the last five of the payload, the last one first (all
    of them, reversed, when there are five or fewer), and nothing that is
    not in the payload. *)
Theorem recent_transactions_last_five (r : Results1.AnalysisResult) :
  length (Results1.recentTransactions r)
  = Nat.min 5 (length (Results1.transactions r))
  /\ Results1.recentTransactions r
     = rev (skipn (length (Results1.transactions r) - 5) (Results1.transactions r))
  /\ ((length (Results1.transactions r) <= 5)%nat ->
      Results1.recentTransactions r = rev (Results1.transactions r))
  /\ (forall t, In t (Results1.recentTransactions r) ->
                In t (Results1.transactions r))
  /\ (forall t, (length (Results1.transactions r) <= 5)%nat ->
                In t (Results1.transactions r) ->
                In t (Results1.recentTransactions r)).
Proof.
  unfold Results1.recentTransactions.
  assert (Hall : (length (Results1.transactions r) <= 5)%nat ->
                 firstn 5 (rev (Results1.transactions r))
                 = rev (Results1.transactions r)).
  { intro Hle. apply firstn_all2. rewrite length_rev. exact Hle. }
  repeat match goal with |- _ /\ _ => split end.
  - rewrite length_firstn, length_rev. reflexivity.
  - apply firstn_rev.
  - exact Hall.
  - intros t Ht. apply in_rev.
    rewrite <- (firstn_skipn 5 (rev (Results1.transactions r))).
    apply in_or_app. left. exact Ht.
  - intros t Hle Ht. rewrite (Hall Hle). apply in_rev in Ht. exact Ht.
Qed.

Lemma recent_transactions_last_five_witness :
  Results1.recentTransactions spent_negative
  = rev (Results1.transactions spent_negative).
Proof.
  apply (recent_transactions_last_five spent_negative). cbn. lia.
Defined.

Lemma expanded_rows_absent (x : string) (cats : list string) :
  ~ In x cats -> Breakdown.expanded_rows (Some x) cats = [].
Proof.
  induction cats as [|c cats IH]; intro Hx; [reflexivity|].
  cbn. destruct (String.eqb_spec x c) as [-> | Hc].
  - exfalso. apply Hx. left. reflexivity.
  - apply IH. intro H. apply Hx. right. exact H.
Qed.

(** X15.  The category list is an accordion.  After a click on a
    category, that category is expanded exactly if it was not before, and
    no other category is expanded; and in a breakdown whose category
    names are distinct at most one row is drawn expanded. *)
Theorem category_accordion :
  (forall expanded c c',
      Breakdown.is_expanded (Breakdown.toggleCategory expanded c) c'
      = String.eqb c c' && negb (Breakdown.is_expanded expanded c))
  /\ (forall expanded cats,
        NoDup cats -> (length (Breakdown.expanded_rows expanded cats) <= 1)%nat).
Proof.
  split.
  - intros expanded c c'. unfold Breakdown.toggleCategory.
    destruct (Breakdown.is_expanded expanded c); cbn.
    + rewrite andb_false_r. reflexivity.
    + rewrite andb_true_r. reflexivity.
  - intros [x|] cats Hnd.
    + induction Hnd as [|c cats Hc Hnd IH]; [cbn; lia|].
      cbn. destruct (String.eqb_spec x c) as [-> | Hx]; [|exact IH].
      fold (Breakdown.expanded_rows (Some c) cats).
      rewrite (expanded_rows_absent c cats Hc). cbn. lia.
    + induction cats as [|c cats IH]; [cbn; lia|].
      apply NoDup_cons_iff in Hnd. cbn. apply IH. apply Hnd.
Qed.

Lemma category_accordion_witness :
  (length (Breakdown.expanded_rows
             (Breakdown.toggleCategory None "food") [ "bills"; "food"; "travel" ]) <= 1)%nat.
Proof.
  apply (proj2 category_accordion).
  repeat constructor; cbn; intuition discriminate.
Defined.

(** X16.  The note with the number of pages is shown exactly for a page
    count above zero, with the same text on both results screens.  For a
    page count of zero the first screen shows nothing and the second one
    renders the number 0; a missing or negative page count renders
    nothing. *)
Theorem page_note_cases :
  (forall n, 0 < n ->
      Breakdown.page_note1 n
      = Some [ Lit "Based on "; Num n; Lit " page(s) in the PDF" ]
      /\ Breakdown.page_note2 (Some n) = Breakdown.page_note1 n)
  /\ (forall n, n <= 0 -> Breakdown.page_note1 n = None)
  /\ (forall p, Breakdown.page_note2 p = Some [ Num 0 ] <-> p = Some 0)
  /\ (forall p, Breakdown.page_note2 p = None
                <-> p = None \/ exists n, p = Some n /\ n < 0).
Proof.
  unfold Breakdown.page_note1, Breakdown.page_note2.
  repeat match goal with |- _ /\ _ => split end.
  - intros n Hn. destruct (Z.gtb_spec n 0); [|lia].
    destruct (Z.eqb_spec n 0); [lia|]. split; reflexivity.
  - intros n Hn. destruct (Z.gtb_spec n 0); [lia|reflexivity].
  - intros [n|]; split; intro H; try discriminate.
    + destruct (Z.eqb_spec n 0) as [Hz | Hz]; [rewrite Hz; reflexivity|].
      destruct (Z.gtb_spec n 0); discriminate.
    + injection H as ->. reflexivity.
  - intros [n|]; split; intro H.
    + right. exists n. split; [reflexivity|].
      destruct (Z.eqb_spec n 0); [discriminate|].
      destruct (Z.gtb_spec n 0); [discriminate|lia].
    + destruct H as [H | (m & Hm & Hneg)]; [discriminate|].
      injection Hm as ->.
      destruct (Z.eqb_spec m 0); [lia|].
      destruct (Z.gtb_spec m 0); [lia|reflexivity].
    + left. reflexivity.
    + reflexivity.
Qed.

Lemma page_note_cases_witness :
  Breakdown.page_note2 (Some 3) = Breakdown.page_note1 3.
Proof. apply (proj1 page_note_cases 3). lia. Defined.



(** * The notification settings *)

(** X18.  Toggling a notification setting flips that setting and no
    other; toggling it twice gives back the settings as they were; and
    two toggles give the same settings in either order. *)
Theorem toggle_setting_laws (s : NotificationSettings.Settings)
        (k k' : NotificationSettings.SettingKey) :
  NotificationSettings.get (NotificationSettings.handleToggle k s) k
  = negb (NotificationSettings.get s k)
  /\ (k <> k' ->
      NotificationSettings.get (NotificationSettings.handleToggle k s) k'
      = NotificationSettings.get s k')
  /\ NotificationSettings.handleToggle k (NotificationSettings.handleToggle k s) = s
  /\ NotificationSettings.handleToggle k (NotificationSettings.handleToggle k' s)
     = NotificationSettings.handleToggle k' (NotificationSettings.handleToggle k s).
Proof.
  destruct s as [p e m].
  repeat split.
  - destruct k; reflexivity.
  - intro Hk. destruct k, k'; try reflexivity; contradiction Hk; reflexivity.
  - destruct k; cbn; rewrite negb_involutive; reflexivity.
  - destruct k, k'; reflexivity.
Qed.

Lemma toggle_setting_laws_witness :
  NotificationSettings.get
    (NotificationSettings.handleToggle NotificationSettings.Promotions
       NotificationSettings.init)
    NotificationSettings.EmailNotifications
  = NotificationSettings.get NotificationSettings.init
      NotificationSettings.EmailNotifications.
Proof.
  apply (toggle_setting_laws NotificationSettings.init
           NotificationSettings.Promotions NotificationSettings.EmailNotifications).
  discriminate.
Defined.
